(** * Stock portfolio tracker (portfolio_tracker.py)

    A shallow embedding of the session handlers and of the valuation block of
    [main], and the properties of the specification that hold (or fail) on it.

    - Python floats and the float64 cells of pandas are Rocq's primitive
      binary64 floats: NaN, the infinities and the signed zeros are the real
      ones, and every arithmetic step rounds as the hardware does.
    - A pandas DataFrame is an index (the dates, in order), the column labels
      (in order) and the cell stored under a label and a date.
    - A Python exception is a value of [Exception]; a statement that may raise
      returns a [Result]. *)

From Stdlib Require Import ZArith List String Ascii Bool Lia Floats.
Import ListNotations.

Local Open Scope float_scope.

(** ** IEEE binary64 helpers *)

Module F64.

(** [pandas.notna] on a float64 cell. *)
Definition notna (f : float) : bool := negb (is_nan f).

(** [float(z)] for a Python int: the nearest binary64 value. *)
Definition of_Z (z : Z) : float := SF2Prim (binary_normalize prec emax z 0 false).

(** The [Holding] invariant of the data model: a share count is a positive,
    finite number. *)
Definition positive_finite (f : float) : bool := (0 <? f) && (f <? infinity).

(** [Series.sum(skipna=True)] on one row: the NaN cells are excluded, the
    others are accumulated left to right from [0.0]. *)
Definition nansum (l : list float) : float :=
  fold_left (fun acc v => if is_nan v then acc else acc + v) l 0.


End F64.

(** ** Python values, exceptions *)

Module Py.

(** The scalars a portfolio record can hold: the form stores a [str] and a
    [float]; [read_csv] may also produce integers, booleans and NaN. *)
Inductive Value : Type :=
| VStr (s : string)
| VFloat (f : float)
| VInt (z : Z)
| VBool (b : bool).

(** Equality of labels and dictionary keys. Text, the only kind of label a
    price provider returns, is compared as Python does; the other scalars
    are compared structurally. *)
Definition Value_eqb (a b : Value) : bool :=
  match a, b with
  | VStr s, VStr t => String.eqb s t
  | VFloat f, VFloat g => PrimFloat.Leibniz.eqb f g
  | VInt x, VInt y => Z.eqb x y
  | VBool x, VBool y => Bool.eqb x y
  | _, _ => false
  end.

(** [v == s] for a [str] [s] (line 72): only an equal string is equal. *)
Definition eq_str (v : Value) (s : string) : bool :=
  match v with
  | VStr t => String.eqb t s
  | _ => false
  end.

Inductive Exception : Type :=
| IndexError
| KeyError
| TypeError
| OverflowError
| UnicodeDecodeError
| EmptyDataError
| ParserError.

Inductive Result (A : Type) : Type :=
| Ok (a : A)
| Raise (e : Exception).
Arguments Ok {A} a.
Arguments Raise {A} e.

Definition bind {A B} (m : Result A) (k : A -> Result B) : Result B :=
  match m with
  | Ok a => k a
  | Raise e => Raise e
  end.

(** The float64 a scalar multiplies a float64 Series by. An [int] is
    converted as [float(z)] does: to the nearest float64, and with an
    [OverflowError] when that is beyond the largest one. A [str] makes the
    multiplication raise [TypeError]. *)
Definition as_number (v : Value) : Result float :=
  match v with
  | VFloat f => Ok f
  | VInt z => if is_infinity (F64.of_Z z) then Raise OverflowError else Ok (F64.of_Z z)
  | VBool b => Ok (if b then 1 else 0)
  | VStr _ => Raise TypeError
  end.

(** [x in xs] *)
Definition contains (xs : list Value) (x : Value) : bool := existsb (Value_eqb x) xs.

(** A [dict]: keys are unique, a new key goes last, an existing key keeps
    its place and takes the new value. *)
Definition dict := list (Value * Value).

Fixpoint dict_set (k v : Value) (d : dict) : dict :=
  match d with
  | [] => [(k, v)]
  | (k', v') :: r => if Value_eqb k' k then (k', v) :: r else (k', v') :: dict_set k v r
  end.

Fixpoint dict_get (k : Value) (d : dict) : option Value :=
  match d with
  | [] => None
  | (k', v') :: r => if Value_eqb k' k then Some v' else dict_get k r
  end.

End Py.

Notation "x <- m ;; k" := (Py.bind m (fun x => k))
  (at level 61, m at next level, right associativity).

(** ** The fragment of pandas the program uses *)

Module Pandas.
Import Py.

(** Index labels are trading dates, here day numbers. *)
Definition Date := Z.

Record Series : Type := mkSeries {
  s_index : list Date;
  s_values : Date -> float
}.

Record DataFrame : Type := mkFrame {
  index : list Date;
  columns : list Value;
  cell : Value -> Date -> float
}.

(** A frame written row by row; used to state concrete tables. *)
Fixpoint position (c : Value) (cols : list Value) : option nat :=
  match cols with
  | [] => None
  | c' :: r => if Value_eqb c' c then Some O else option_map S (position c r)
  end.

Fixpoint row_of (d : Date) (rows : list (Date * list float)) : option (list float) :=
  match rows with
  | [] => None
  | (d', r) :: rest => if Z.eqb d' d then Some r else row_of d rest
  end.

Definition table (cols : list Value) (rows : list (Date * list float)) : DataFrame :=
  {| index := map fst rows;
     columns := cols;
     cell := fun c d =>
       match position c cols, row_of d rows with
       | Some i, Some r => nth i r nan
       | _, _ => nan
       end |}.

Definition series (rows : list (Date * float)) : Series :=
  {| s_index := map fst rows;
     s_values := fun d =>
       match row_of d (map (fun r => (fst r, [snd r])) rows) with
       | Some [v] => v
       | _ => nan
       end |}.

(** The rows of a frame, for display. *)
Definition row (df : DataFrame) (d : Date) : list float :=
  map (fun c => cell df c d) (columns df).

Definition to_rows (df : DataFrame) : list (Date * list float) :=
  map (fun d => (d, row df d)) (index df).

(** [s.to_frame(name=name)] *)
Definition to_frame (s : Series) (name : Value) : DataFrame :=
  {| index := s_index s;
     columns := [name];
     cell := fun c d => if Value_eqb c name then s_values s d else nan |}.

(** [df.dropna(how='all')]: a row is kept when some column is not NaN. *)
Definition dropna_all (df : DataFrame) : DataFrame :=
  {| index := filter (fun d => existsb (fun c => F64.notna (cell df c d)) (columns df)) (index df);
     columns := columns df;
     cell := cell df |}.

(** [pd.DataFrame(index=idx)] *)
Definition empty_frame (idx : list Date) : DataFrame :=
  {| index := idx; columns := []; cell := fun _ _ => nan |}.

(** [df[c] = s] for a Series [s] on the index of [df]: an existing column
    is overwritten in place, a new one is appended. *)
Definition set_column (df : DataFrame) (c : Value) (s : Date -> float) : DataFrame :=
  {| index := index df;
     columns := if contains (columns df) c then columns df else columns df ++ [c];
     cell := fun c' d => if Value_eqb c' c then s d else cell df c' d |}.

(** [df.drop(columns=[c])] *)
Definition drop_column (df : DataFrame) (c : Value) : DataFrame :=
  {| index := index df;
     columns := filter (fun c' => negb (Value_eqb c' c)) (columns df);
     cell := cell df |}.

(** [df.sum(axis=1)]: the Series of row sums, NaN cells skipped. *)
Definition sum_axis1 (df : DataFrame) : Date -> float :=
  fun d => F64.nansum (row df d).

(** [s * v] for a float64 Series and a scalar. *)
Definition mul_scalar (s : Date -> float) (v : Value) : Result (Date -> float) :=
  match as_number v with
  | Ok f => Ok (fun d => s d * f)
  | Raise e => Raise e
  end.

(** [s.iloc[0]] and [s.iloc[-1]] on a column of a frame with index [idx]. *)
Definition iloc_first (idx : list Date) (s : Date -> float) : Result float :=
  match idx with
  | [] => Raise IndexError
  | d :: _ => Ok (s d)
  end.

Definition last_date (idx : list Date) : option Date :=
  match idx with
  | [] => None
  | d :: r => Some (last r d)
  end.

Definition iloc_last (idx : list Date) (s : Date -> float) : Result float :=
  match last_date idx with
  | None => Raise IndexError
  | Some d => Ok (s d)
  end.

(** [df.iloc[-1].reset_index()]: the last row as (label, value) pairs. *)
Definition iloc_last_row (df : DataFrame) : Result (list (Value * float)) :=
  match last_date (index df) with
  | None => Raise IndexError
  | Some d => Ok (map (fun c => (c, cell df c d)) (columns df))
  end.

End Pandas.

(** ** The CSV text that [DataFrame.to_csv] writes and [pd.read_csv] reads

    A file is the string of its bytes. Default dialect: UTF-8 text, a byte
    order mark at the start dropped, comma separated, fields quoted with a
    double quote when they need it, blank lines and lines of blanks skipped,
    first line the header, data lines longer than the header giving their
    leading fields to the index, the default missing-value markers, and
    per-column type inference (integers, else floats, else booleans, else
    text), numbers being read with the blanks around them removed. *)

Module Csv.
Import Py.
Local Open Scope string_scope.
Local Open Scope char_scope.

Definition dquote : ascii := "034".
Definition comma : ascii := ",".
Definition LF : ascii := "010".
Definition CR : ascii := "013".

(** A table of records: the column labels with their cells, top to bottom. *)
Definition RecordFrame := list (string * list Value).

Fixpoint column (name : string) (f : RecordFrame) : option (list Value) :=
  match f with
  | [] => None
  | (n, cells) :: r => if String.eqb n name then Some cells else column name r
  end.

(** *** Writing *)

Definition special (c : ascii) : bool :=
  (c =? comma) || (c =? dquote) || (c =? LF) || (c =? CR).

Definition needs_quoting (s : string) : bool :=
  existsb special (list_ascii_of_string s).

Fixpoint escape (s : string) : string :=
  match s with
  | EmptyString => EmptyString
  | String c r =>
      if c =? dquote then String dquote (String dquote (escape r))
      else String c (escape r)
  end.

Definition write_field (s : string) : string :=
  if needs_quoting s
  then String dquote (String.append (escape s) (String dquote EmptyString))
  else s.

Definition write_row (fields : list string) : string :=
  String.append (String.concat (String comma EmptyString) (map write_field fields))
                (String LF EmptyString).

Fixpoint digits_of (fuel : nat) (n : N) (acc : string) : string :=
  match fuel with
  | O => acc
  | S fuel' =>
      let acc' := String (ascii_of_N (48 + N.modulo n 10)) acc in
      if N.ltb n 10 then acc' else digits_of fuel' (N.div n 10) acc'
  end.

(** [str(z)] for an int *)
Definition int_text (z : Z) : string :=
  let d := digits_of (S (N.to_nat (N.log2 (Z.abs_N z)))) (Z.abs_N z) EmptyString in
  if Z.ltb z 0 then String "-" d else d.

(** *** Reading: bytes to text *)

(** The state of a UTF-8 decoder between two bytes: at the boundary of a
    character, or inside one, where the next byte has to be in [lo..hi]
    and [more] continuation bytes follow it. *)
Inductive Utf8 : Type :=
| Boundary
| Pending (lo hi : N) (more : nat).

Definition between (lo n hi : N) : bool := N.leb lo n && N.leb n hi.

Definition utf8_step (st : Utf8) (c : ascii) : option Utf8 :=
  let n := N_of_ascii c in
  match st with
  | Boundary =>
      if N.ltb n 128 then Some Boundary
      else if between 194 n 223 then Some (Pending 128 191 0)
      else if N.eqb n 224 then Some (Pending 160 191 1)
      else if N.eqb n 237 then Some (Pending 128 159 1)
      else if between 225 n 239 then Some (Pending 128 191 1)
      else if N.eqb n 240 then Some (Pending 144 191 2)
      else if between 241 n 243 then Some (Pending 128 191 2)
      else if N.eqb n 244 then Some (Pending 128 143 2)
      else None
  | Pending lo hi more =>
      if between lo n hi
      then Some match more with
                | O => Boundary
                | S k => Pending 128 191 k
                end
      else None
  end.

Fixpoint utf8_run (s : string) (st : Utf8) : option Utf8 :=
  match s with
  | EmptyString => Some st
  | String c r =>
      match utf8_step st c with
      | Some st' => utf8_run r st'
      | None => None
      end
  end.

(** The bytes are the UTF-8 encoding of some text. *)
Definition utf8 (s : string) : bool :=
  match utf8_run s Boundary with
  | Some Boundary => true
  | _ => false
  end.

(** The byte order mark, which the reader drops at the start of a file. *)
Definition drop_bom (s : string) : string :=
  match s with
  | String "239" (String "187" (String "191" r)) => r
  | _ => s
  end.

Definition decode (file : string) : Result string :=
  if utf8 file then Ok (drop_bom file) else Raise UnicodeDecodeError.

(** *** Reading: fields *)

(** The states of the tokenizer: at the start of a line, in the blanks a
    line starts with, at the start of a field, in an unquoted field, in a
    quoted field, after a double quote in a quoted field, and after the
    carriage return of a skipped line. A carriage return that ends a line
    of fields leaves the reader at the start of a line, where the line feed
    that may follow is an empty line. *)
Inductive Mode : Type :=
| StartRecord
| WhitespaceLine
| StartField
| InField
| InQuotedField
| QuoteInQuotedField
| AfterBlankCR.

Definition close_field (fld : list ascii) (row : list string) : list string :=
  string_of_list_ascii (rev fld) :: row.

(** The state of the reader: its mode, the characters of the current field
    and the fields of the current line, both latest first. *)
Record Reader : Type := mkReader {
  mode : Mode;
  fld : list ascii;
  row : list string
}.

Definition start : Reader := mkReader StartRecord [] [].

Definition next_field (rd : Reader) : Reader * option (list string) :=
  (mkReader StartField [] (close_field (fld rd) (row rd)), None).

Definition next_line (rd : Reader) : Reader * option (list string) :=
  (start, Some (rev (close_field (fld rd) (row rd)))).

Definition push (m : Mode) (c : ascii) (rd : Reader) : Reader * option (list string) :=
  (mkReader m (c :: fld rd) (row rd), None).

Definition is_blank (c : ascii) : bool := (c =? " ") || (c =? "009").

Definition start_field (c : ascii) (rd : Reader) : Reader * option (list string) :=
  if (c =? LF) || (c =? CR) then next_line rd
  else if c =? dquote then (mkReader InQuotedField (fld rd) (row rd), None)
  else if c =? comma then next_field rd
  else push InField c rd.

Definition in_field (c : ascii) (rd : Reader) : Reader * option (list string) :=
  if (c =? LF) || (c =? CR) then next_line rd
  else if c =? comma then next_field rd
  else push InField c rd.

Definition start_record (c : ascii) : Reader * option (list string) :=
  if c =? LF then (start, None)
  else if c =? CR then (mkReader AfterBlankCR [] [], None)
  else if is_blank c then (mkReader WhitespaceLine [c] [], None)
  else start_field c start.

(** One character: the next state, and the line it completes if any. A
    line with no character, or with blanks only, is skipped; the blanks a
    line of fields starts with belong to its first field, which is then an
    unquoted one. After the carriage return of a skipped line a line feed
    or a comma is passed over. *)
Definition read_char (c : ascii) (rd : Reader) : Reader * option (list string) :=
  match mode rd with
  | StartRecord => start_record c
  | WhitespaceLine =>
      if c =? LF then (start, None)
      else if c =? CR then (mkReader AfterBlankCR [] [], None)
      else if is_blank c then push WhitespaceLine c rd
      else in_field c rd
  | StartField => start_field c rd
  | InField => in_field c rd
  | InQuotedField =>
      if c =? dquote then (mkReader QuoteInQuotedField (fld rd) (row rd), None)
      else push InQuotedField c rd
  | QuoteInQuotedField =>
      if c =? dquote then push InQuotedField c rd
      else in_field c rd
  | AfterBlankCR =>
      if (c =? LF) || (c =? comma) then (start, None)
      else start_record c
  end.

(** The lines of a text. A text that ends inside a quoted field is refused. *)
Fixpoint tokenize (s : string) (rd : Reader) : Result (list (list string)) :=
  match s with
  | EmptyString =>
      match mode rd with
      | InQuotedField => Raise ParserError
      | StartRecord | WhitespaceLine | AfterBlankCR => Ok []
      | StartField | InField | QuoteInQuotedField =>
          Ok [rev (close_field (fld rd) (row rd))]
      end
  | String c r =>
      match read_char c rd with
      | (rd', Some line) => rest <- tokenize r rd' ;; Ok (line :: rest)
      | (rd', None) => tokenize r rd'
      end
  end.

Definition lines_of (text : string) : Result (list (list string)) :=
  tokenize text start.

(** *** Reading: cell types *)

(** The default [na_values] of [read_csv]. *)
Definition na_values : list string :=
  [ ""; "#N/A"; "#N/A N/A"; "#NA"; "-1.#IND"; "-1.#QNAN"; "-NaN"; "-nan";
    "1.#IND"; "1.#QNAN"; "<NA>"; "N/A"; "NA"; "NULL"; "NaN"; "None"; "n/a";
    "nan"; "null" ]%string.

Definition is_na (s : string) : bool := existsb (String.eqb s) na_values.

(** The blanks the number conversions pass over: space, tab, line feed,
    vertical tab, form feed, carriage return. *)
Definition is_space (c : ascii) : bool :=
  (c =? " ") || between 9 (N_of_ascii c) 13.

Fixpoint lstrip (l : list ascii) : list ascii :=
  match l with
  | [] => []
  | c :: r => if is_space c then lstrip r else l
  end.

Definition strip (s : string) : string :=
  string_of_list_ascii (rev (lstrip (rev (lstrip (list_ascii_of_string s))))).

Definition digit (c : ascii) : option Z :=
  let n := N_of_ascii c in
  if (N.leb 48 n) && (N.leb n 57) then Some (Z.of_N (n - 48)) else None.

Fixpoint parse_digits (s : string) (acc : Z) : option Z :=
  match s with
  | EmptyString => Some acc
  | String c r =>
      match digit c with
      | Some d => parse_digits r (10 * acc + d)
      | None => None
      end
  end.

Definition parse_nat (s : string) : option Z :=
  match s with
  | EmptyString => None
  | _ => parse_digits s 0
  end.

(** An optional sign and digits, with blanks before and after. *)
Definition parse_int (s : string) : option Z :=
  match strip s with
  | String "-" r => option_map Z.opp (parse_nat r)
  | String "+" r => parse_nat r
  | t => parse_nat t
  end.

Definition parse_bool (s : string) : option bool :=
  if existsb (String.eqb s) ["True"; "TRUE"; "true"]%string then Some true
  else if existsb (String.eqb s) ["False"; "FALSE"; "false"]%string then Some false
  else None.

Definition lower_char (c : ascii) : ascii :=
  let n := N_of_ascii c in
  if between 65 n 90 then ascii_of_N (n + 32) else c.

Fixpoint lower (s : string) : string :=
  match s with
  | EmptyString => EmptyString
  | String c r => String (lower_char c) (lower r)
  end.

(** The words read as an infinity, in any case of their letters and with
    no blank around them. *)
Definition parse_inf (s : string) : option float :=
  let w := lower s in
  if existsb (String.eqb w) ["inf"; "+inf"; "infinity"; "+infinity"]%string
  then Some infinity
  else if existsb (String.eqb w) ["-inf"; "-infinity"]%string
  then Some neg_infinity
  else None.

Definition is_some {A} (o : option A) : bool :=
  match o with Some _ => true | None => false end.

Definition is_float_cell (v : Value) : bool :=
  match v with VFloat _ => true | _ => false end.

Definition is_number_cell (v : Value) : bool :=
  match v with VFloat _ | VInt _ => true | _ => false end.

Section FloatText.

(** The decimal text of a float64, [repr] as [to_csv] writes it, and the
    conversion of a decimal text (digits, point, exponent) to a float64 by
    the reader. Both belong to the Python runtime and to pandas; the model
    takes them as given. *)
Variable float_repr : float -> string.
Variable float_parse : string -> option float.

(** The text of a cell; [as_float] tells that the column is float64
    (numbers only, one of them a float), where an int is written as the
    float it was converted to. NaN is written as the empty field. *)
Definition cell_text (as_float : bool) (v : Value) : string :=
  match v with
  | VStr s => s
  | VFloat f => if is_nan f then EmptyString else float_repr f
  | VInt z => if as_float then float_repr (F64.of_Z z) else int_text z
  | VBool b => if b then "True"%string else "False"%string
  end.

Definition column_text (cells : list Value) : list string :=
  map (cell_text (forallb is_number_cell cells && existsb is_float_cell cells)) cells.

(** [df.to_csv(index=False)] *)
Definition to_csv (f : RecordFrame) : string :=
  let texts := map (fun c => column_text (snd c)) f in
  let n := match f with [] => O | c :: _ => List.length (snd c) end in
  String.append
    (write_row (map fst f))
    (String.concat EmptyString
       (map (fun i => write_row (map (fun t => nth i t EmptyString) texts)) (seq 0 n))).

(** The float of a field: its decimal text with the blanks around it
    removed, or one of the words for an infinity. *)
Definition parse_float (s : string) : option float :=
  match float_parse (strip s) with
  | Some f => Some f
  | None => parse_inf s
  end.

Definition parse_number (s : string) : option float :=
  match parse_int s with
  | Some z => Some (F64.of_Z z)
  | None => parse_float s
  end.

(** The cells of one column, from the text of its fields. *)
Definition infer_column (fields : list string) : list Value :=
  if forallb (fun s => is_some (parse_int s)) fields then
    map (fun s => match parse_int s with Some z => VInt z | None => VStr s end) fields
  else if forallb (fun s => is_na s || is_some (parse_number s)) fields then
    map (fun s => match parse_number s with
                  | Some f => if is_na s then VFloat nan else VFloat f
                  | None => VFloat nan
                  end) fields
  else if forallb (fun s => is_some (parse_bool s)) fields then
    map (fun s => match parse_bool s with Some b => VBool b | None => VStr s end) fields
  else
    map (fun s => if is_na s then VFloat nan
                  else match parse_bool s with
                       | Some b => if forallb (fun s' => is_na s' || is_some (parse_bool s')) fields
                                   then VBool b else VStr s
                       | None => VStr s
                       end) fields.

(** The number of fields of the data lines: that of the first one, or of
    the header when that is longer. A shorter line is filled up with empty
    fields; a later line with more fields is an error. *)
Definition table_width (header : list string) (body : list (list string)) : nat :=
  match body with
  | [] => List.length header
  | first :: _ => Nat.max (List.length header) (List.length first)
  end.

(** [pd.read_csv(file)]. The fields a data line has beyond the header are
    its first ones and make the index; the columns of the header follow
    them. Of the columns under one name the first is the one of that name. *)
Definition read_csv (file : string) : Result RecordFrame :=
  text <- decode file ;;
  lines <- lines_of text ;;
  match lines with
  | [] => Raise EmptyDataError
  | header :: body =>
      let width := table_width header body in
      let leading_cols := (width - List.length header)%nat in
      if existsb (fun r => Nat.ltb width (List.length r)) body
      then Raise ParserError
      else Ok (map (fun ic => (snd ic,
                               infer_column
                                 (map (fun r => nth (leading_cols + fst ic) r EmptyString)
                                      body)))
                   (combine (seq 0 (List.length header)) header))
  end.

End FloatText.

End Csv.

(** ** The program: [main] of portfolio_tracker.py *)

Module Tracker.
Import Py Pandas.
Local Open Scope string_scope.

(** A record of [st.session_state.portfolio]. A record loaded from a file
    with further columns keeps them in Python; they are never read again and
    are left out here. *)
Record Holding : Type := mkHolding {
  ticker : Value;
  shares : Value
}.

(** [st.session_state] *)
Record Session : Type := mkSession {
  portfolio : list Holding
}.

(** What one run of the script puts on the page. *)
Inductive Widget : Type :=
| success (msg : string)
| error (msg : string)
| error_exc (msg : string) (e : Exception)
| warning (msg : string)
| info (msg : string)
| download_button (data : string)
| metric (label : string) (value delta delta_percent : float)
| area_chart (df : DataFrame)
| line_chart (df : DataFrame)
| pie_chart (slices : list (Value * float)).

(** *** Sidebar: save and load (lines 27-60) *)

Section SaveLoad.
Variable float_repr : float -> string.
Variable float_parse : string -> option float.

(** [pd.DataFrame(st.session_state.portfolio)] (line 33) *)
Definition portfolio_frame (p : list Holding) : Csv.RecordFrame :=
  [("ticker", map ticker p); ("shares", map shares p)].

(** Lines 31-42: the text offered for download, when there is a holding. *)
Definition main_download (st : Session) : list Widget :=
  match portfolio st with
  | [] => []
  | p => [download_button (Csv.to_csv float_repr (portfolio_frame p))]
  end.

(** [uploaded_df.to_dict('records')] (line 54) *)
Definition to_dict_records (tickers shares : list Value) : list Holding :=
  map (fun r => mkHolding (fst r) (snd r)) (combine tickers shares).

(** Lines 46-60, for an uploaded file with the given text. *)
Definition main_upload (uploaded_file : string) (st : Session) : Session * list Widget :=
  match Csv.read_csv float_parse uploaded_file with
  | Raise e => (st, [error_exc "Error loading file: " e])
  | Ok uploaded_df =>
      match Csv.column "ticker" uploaded_df, Csv.column "shares" uploaded_df with
      | Some ts, Some ss =>
          (mkSession (to_dict_records ts ss), [success "Portfolio loaded successfully!"])
      | _, _ => (st, [error "CSV must have 'ticker' and 'shares' columns."])
      end
  end.

End SaveLoad.

(** *** Sidebar: the add form (lines 63-91) *)

(** [str.upper], on the ASCII letters. *)
Definition upper_char (c : ascii) : ascii :=
  let n := N_of_ascii c in
  if (N.leb 97 n) && (N.leb n 122) then ascii_of_N (n - 32) else c.

Fixpoint upper (s : string) : string :=
  match s with
  | EmptyString => EmptyString
  | String c r => String (upper_char c) (upper r)
  end.

(** The outcome of [yf.Ticker(t).history(period="1d")] (lines 77-80). *)
Inductive History : Type :=
| HistoryRows
| HistoryEmpty
| HistoryRaised (e : Exception).

(** Lines 64-91, for a submitted form. *)
Definition main_add_stock (history : string -> History)
                          (text : string) (shares_input : float)
                          (st : Session) : Session * list Widget :=
  let ticker_input := upper text in
  if negb (String.eqb ticker_input "") then
    if existsb (fun d => eq_str (ticker d) ticker_input) (portfolio st) then
      (st, [warning (ticker_input ++ " is already in your portfolio.")])
    else
      match history ticker_input with
      | HistoryRows =>
          (mkSession (portfolio st ++ [mkHolding (VStr ticker_input) (VFloat shares_input)]),
           [success ("Added " ++ ticker_input)])
      | HistoryEmpty => (st, [error ("Could not find data for " ++ ticker_input ++ ".")])
      | HistoryRaised e => (st, [error_exc "Error adding ticker: " e])
      end
  else (st, [warning "Please enter a ticker symbol."]).

(** Lines 100-101: the remove button of row [i]. *)
Definition main_remove (i : nat) (st : Session) : Session :=
  mkSession (firstn i (portfolio st) ++ skipn (S i) (portfolio st)).

(** *** Main area: prices to values (lines 126-216) *)

(** What [yf.download(...)['Close']] returned: a Series for a single stock
    or a DataFrame with a column per stock (line 142). *)
Inductive Response : Type :=
| RSeries (s : Series)
| RFrame (df : DataFrame).

(** Line 130 *)
Definition tickers_of (p : list Holding) : list Value := map ticker p.

(** Line 131 *)
Definition share_map_of (p : list Holding) : dict :=
  fold_left (fun d item => dict_set (ticker item) (shares item) d) p [].

(** Lines 143-144: a Series is promoted to a one-column frame named after
    the first requested ticker. *)
Definition promote (tickers : list Value) (resp : Response) : Result DataFrame :=
  match resp with
  | RSeries s =>
      match tickers with
      | [] => Raise IndexError
      | t0 :: _ => Ok (to_frame s t0)
      end
  | RFrame df => Ok df
  end.

(** Lines 143-147 *)
Definition normalize (tickers : list Value) (resp : Response) : Result DataFrame :=
  df <- promote tickers resp ;;
  Ok (dropna_all df).

(** Lines 152-154 *)
Fixpoint value_columns (df : DataFrame) (share_map : dict) (tickers : list Value)
                       (portfolio_value_df : DataFrame) : Result DataFrame :=
  match tickers with
  | [] => Ok portfolio_value_df
  | ticker :: rest =>
      if contains (columns df) ticker then
        match dict_get ticker share_map with
        | None => Raise KeyError
        | Some s =>
            col <- mul_scalar (cell df ticker) s ;;
            value_columns df share_map rest (set_column portfolio_value_df ticker col)
        end
      else value_columns df share_map rest portfolio_value_df
  end.

Definition total_label : Value := VStr "Total Value".

(** The data behind the metric and the three charts. *)
Record Valuation : Type := mkValuation {
  portfolio_value_df : DataFrame;
  current_total : float;
  start_total : float;
  delta : float;
  delta_percent : float;
  individual_df : DataFrame;
  current_composition : list (Value * float)
}.

(** Lines 130-203: the body of the [try]. *)
Definition main_valuation (p : list Holding) (resp : Response) : Result Valuation :=
  let tickers := tickers_of p in
  let share_map := share_map_of p in
  df <- normalize tickers resp ;;
  pv <- value_columns df share_map tickers (empty_frame (index df)) ;;
  let portfolio_value_df := set_column pv total_label (sum_axis1 pv) in
  current_total <- iloc_last (index portfolio_value_df) (cell portfolio_value_df total_label) ;;
  start_total <- iloc_first (index portfolio_value_df) (cell portfolio_value_df total_label) ;;
  let delta := (current_total - start_total)%float in
  let delta_percent := ((delta / start_total) * 100)%float in
  let individual_df := drop_column portfolio_value_df total_label in
  current_composition <- iloc_last_row individual_df ;;
  Ok (mkValuation portfolio_value_df current_total start_total delta delta_percent
                  individual_df current_composition).

(** Lines 108-216: the page below the sidebar. The [except] clause turns any
    exception of the body into an error box and a hint. *)
Definition main_content (resp : Response) (st : Session) : Session * list Widget :=
  match portfolio st with
  | [] => (st, [info "Please add stocks using the sidebar or Upload a CSV to generate the chart."])
  | _ =>
      match main_valuation (portfolio st) resp with
      | Ok v =>
          (st, [metric "Current Portfolio Value" (current_total v) (delta v) (delta_percent v);
                area_chart (portfolio_value_df v);
                line_chart (individual_df v);
                pie_chart (current_composition v)])
      | Raise e =>
          (st, [error_exc "An error occurred while processing data: " e;
                info "This may happen if a newly added stock doesn't have data for the selected time range."])
      end
  end.

End Tracker.

(** ** Sample data *)

Module Samples.
Import Py Pandas Tracker.
Local Open Scope string_scope.

(** A two-entry excerpt of Python's float text: [repr(1.0)], [repr(2.5)]
    and the floats these texts are read as. *)
Definition repr_excerpt (f : float) : string :=
  if (f =? 1)%float then "1.0" else if (f =? 2.5)%float then "2.5" else "nan".

Definition parse_excerpt (s : string) : option float :=
  if String.eqb s "1.0" then Some 1%float
  else if String.eqb s "2.5" then Some 2.5%float
  else None.

Definition AAPL := VStr "AAPL".
Definition MSFT := VStr "MSFT".
Definition ZZZZ := VStr "ZZZZ".

Definition two_stocks : list Holding :=
  [mkHolding AAPL (VFloat 10); mkHolding MSFT (VFloat 5)].

Definition two_days : Response :=
  RFrame (table [AAPL; MSFT] [(1%Z, [100; 200]); (2%Z, [110; 210])]%float).

(** One stock whose price is zero on the first day. *)
Definition one_stock : list Holding := [mkHolding AAPL (VFloat 10)].

Definition zero_start : Response :=
  RFrame (table [AAPL] [(1%Z, [0]); (2%Z, [5])]%float).

(** No trading at all in the window: every row is dropped. *)
Definition no_trading : Response :=
  RFrame (table [AAPL; MSFT] [(1%Z, [nan; nan]); (2%Z, [nan; nan])]%float).

(** MSFT has no price on the latest day. *)
Definition msft_gap : Response :=
  RFrame (table [AAPL; MSFT] [(1%Z, [100; 200]); (2%Z, [110; nan])]%float).

(** A portfolio with a ticker the provider knows nothing about. *)
Definition with_unknown : list Holding :=
  [mkHolding AAPL (VFloat 10); mkHolding ZZZZ (VFloat 3)].

Definition aapl_only : Response :=
  RFrame (table [AAPL] [(1%Z, [100]); (2%Z, [110])]%float).

Definition aapl_series : Response :=
  RSeries (series [(1%Z, 100); (2%Z, nan); (3%Z, 110)]%float).

(** A text file, from its lines. *)
Definition file (lines : list string) : string :=
  String.concat "" (map (fun l => l ++ String Csv.LF "") lines).

(** An upload with two rows for the same ticker. *)
Definition duplicate_rows : string := file ["ticker,shares"; "AAPL,1"; "AAPL,2"].

(** A saved portfolio holding Nano Labs, whose ticker symbol is NA. *)
Definition nano_labs : list Holding := [mkHolding (VStr "NA") (VFloat 1)].

(** The byte order mark some editors put at the start of a file. *)
Definition byte_order_mark : string := String "239" (String "187" (String "191" "")).

(** A file that starts with a byte order mark, has a line of blanks, a
    column that is not needed, a numbering in front of its data lines and a
    blank before a number. *)
Definition numbered_rows : string :=
  byte_order_mark ++ file ["note,shares,ticker"; "   "; "0,x, 1,AAPL"; "1,y,2,MSFT"].

(** A file with a byte that is no UTF-8 text. *)
Definition latin1_file : string :=
  file ["ticker,shares"; String "233" ",1"].

(** An uploaded portfolio whose share count is missing, and one whose share
    counts are infinite. *)
Definition missing_shares_file : string := file ["ticker,shares"; "AAPL,"].
Definition missing_shares : list Holding := [mkHolding AAPL (VFloat nan)].

(** An uploaded portfolio whose share count is an integer beyond every float. *)
Definition huge_shares : list Holding := [mkHolding AAPL (VInt (10 ^ 400))].

Definition infinite_shares_file : string := file ["ticker,shares"; "AAPL,inf"; "MSFT,-inf"].
Definition infinite_shares : list Holding :=
  [mkHolding AAPL (VFloat infinity); mkHolding MSFT (VFloat neg_infinity)].

(** MSFT has no price on the first day. *)
Definition msft_late : Response :=
  RFrame (table [AAPL; MSFT] [(1%Z, [100; nan]); (2%Z, [110; 210])]%float).

End Samples.
(** ** Notions the properties are stated with *)

Module Notions.
Import Py Pandas Tracker.

(** The share count the dictionary of line 131 holds for a ticker: that of
    its last record. *)
Fixpoint last_shares (t : Value) (p : list Holding) : option Value :=
  match p with
  | [] => None
  | h :: r =>
      match last_shares t r with
      | Some s => Some s
      | None => if Value_eqb (ticker h) t then Some (shares h) else None
      end
  end.

(** The number a held ticker's prices are multiplied by, when its share
    count converts to one. *)
Definition multiplier (share_map : dict) (t : Value) : option float :=
  match dict_get t share_map with
  | Some s => match as_number s with
              | Ok f => Some f
              | Raise _ => None
              end
  | None => None
  end.

(** The per-ticker columns of a value table: every column but the total. *)
Definition asset_columns (values : DataFrame) : list Value :=
  columns (drop_column values total_label).


(** The invariant of [Holding]: every share count is a positive finite number. *)
Definition valid_shares (p : list Holding) : bool :=
  forallb (fun h => match as_number (shares h) with
                    | Ok f => F64.positive_finite f
                    | Raise _ => false
                    end) p.

(** The provider answered the request: a frame has columns for requested
    tickers only (a Series is the answer for the single requested one). *)
Definition answers (tickers : list Value) (resp : Response) : bool :=
  match resp with
  | RSeries _ => true
  | RFrame df => forallb (contains tickers) (columns df)
  end.


(** The dates of a value table at which the total is not missing. *)
Definition dates_with_total (values : DataFrame) : list Date :=
  filter (fun d => F64.notna (cell values total_label d)) (index values).

(** Every per-ticker value of a value table is a finite number or missing. *)
Definition finite_or_missing (values : DataFrame) : bool :=
  forallb (fun d => forallb (fun c => negb (is_infinity (cell values c d)))
                            (asset_columns values))
          (index values).

Definition is_warning (w : Widget) : bool :=
  match w with
  | warning _ => true
  | _ => false
  end.

(** A portfolio without the records of one ticker. *)
Definition without (t : Value) (p : list Holding) : list Holding :=
  filter (fun h => negb (Value_eqb (ticker h) t)) p.


(** What a run shows, with the value table row by row. *)
Definition summary (r : Result Valuation)
  : option (list (Date * list float) * float * float * float * float * list (Value * float)) :=
  match r with
  | Ok v => Some (to_rows (portfolio_value_df v), start_total v, current_total v,
                  delta v, delta_percent v, current_composition v)
  | Raise _ => None
  end.

(** Runs the valuation of a goal on its concrete input. *)
Ltac run_valuation v E :=
  match goal with
  | |- context [main_valuation ?p ?r] =>
      destruct (main_valuation p r) as [v|?] eqn:E;
      [| vm_compute in E; discriminate E]
  end.

End Notions.

(** ** The sidebar over several runs of the script *)

Module Script.
Import Py Pandas Tracker Notions.
Local Open Scope string_scope.

(** What the user does in the sidebar between two runs: submits the add
    form, or clicks the remove button of row [i]. The number input of line 65
    only yields a finite number of at least 0.01. *)
Inductive Event : Type :=
| Submit (text : string) (shares_input : float)
| Click (i : nat).

(** Lines 63-102 for one event. There is a remove button for the rows of the
    list only (line 96), so a click beyond them cannot happen and does nothing. *)
Definition handle (history : string -> History) (ev : Event) (st : Session) : Session :=
  match ev with
  | Submit text shares_input => fst (main_add_stock history text shares_input st)
  | Click i => if Nat.ltb i (List.length (portfolio st)) then main_remove i st else st
  end.

(** The session after a sequence of events, from the empty portfolio of a
    new session (lines 19-20) or from any other. *)
Definition replay (history : string -> History) (events : list Event) (st : Session)
  : Session :=
  fold_left (fun st ev => handle history ev st) events st.

Definition new_session : Session := mkSession [].

(** The share counts submitted are in the range of the number input. *)
Definition in_range (events : list Event) : bool :=
  forallb (fun ev => match ev with
                     | Submit _ shares_input => F64.positive_finite shares_input
                     | Click _ => true
                     end) events.

(** A holding as the form stores it (lines 81-84): an upper-case, non-empty
    text for the ticker and a float for the share count. *)
Definition form_holding (h : Holding) : bool :=
  match ticker h, shares h with
  | VStr t, VFloat f =>
      String.eqb (upper t) t && negb (String.eqb t "") && F64.positive_finite f
  | _, _ => false
  end.

(** Three submissions, one of them for a held ticker, and a click. *)
Definition busy_afternoon : list Event :=
  [Submit "aapl" 10; Submit "msft" 5; Submit "AAPL" 3; Click 0; Submit "Goog" 0.5]%float.

End Script.

(** ** Further notions and samples *)

Module MoreNotions.
Import Py Pandas Tracker Notions Samples.
Local Open Scope string_scope.

(** The dates of the answer of the provider. *)
Definition response_index (resp : Response) : list Date :=
  match resp with
  | RSeries s => s_index s
  | RFrame df => index df
  end.

(** Dates strictly increasing, as a price table has them. *)
Fixpoint increasing (l : list Date) : bool :=
  match l with
  | [] => true
  | d :: r => forallb (Z.ltb d) r && increasing r
  end.

(** Every held ticker with a price column has a number for its share count
    (the one of its last record), and one that converts to a float. *)
Definition numeric_shares (p : list Holding) (df : DataFrame) : bool :=
  forallb (fun t => negb (contains (columns df) t)
                    || match multiplier (share_map_of p) t with
                       | Some _ => true
                       | None => false
                       end)
          (tickers_of p).

(** An uploaded portfolio with two records for AAPL. *)
Definition aapl_twice : list Holding :=
  [mkHolding AAPL (VInt 1); mkHolding MSFT (VInt 5); mkHolding AAPL (VInt 2)].

(** An uploaded portfolio whose share count is a word. *)
Definition ten_in_words : list Holding := [mkHolding AAPL (VStr "ten")].

Section Saving.
Variable float_repr : float -> string.
Variable float_parse : string -> option float.

(** A text that is written as it is: the bytes of a Python [str] (its
    UTF-8 encoding), with no comma, double quote or line break, so that it
    needs no quoting. *)
Definition plain (t : string) : bool := negb (Csv.needs_quoting t) && Csv.utf8 t.

(** The texts written for the cells of a portfolio are plain. *)
Definition plain_texts (p : list Holding) : bool :=
  forallb plain
          (Csv.column_text float_repr (map ticker p)
           ++ Csv.column_text float_repr (map shares p)).

(** A ticker the reader takes for text: plain, and neither a missing-value
    marker nor the text of a number or of a boolean. *)
Definition text_ticker (t : string) : bool :=
  plain t
  && negb (Csv.is_na t)
  && negb (Csv.is_some (Csv.parse_number float_parse t))
  && negb (Csv.is_some (Csv.parse_bool t)).

(** A share count whose text is read back as the same float: not NaN, its
    text plain, no missing-value marker, not the text of an integer. *)
Definition readable_shares (f : float) : bool :=
  negb (is_nan f)
  && plain (float_repr f)
  && negb (Csv.is_na (float_repr f))
  && negb (Csv.is_some (Csv.parse_int (float_repr f)))
  && match Csv.parse_float float_parse (float_repr f) with
     | Some g => PrimFloat.Leibniz.eqb g f
     | None => false
     end.

Definition saves_well (p : list Holding) : bool :=
  forallb (fun h => match ticker h, shares h with
                    | VStr t, VFloat f => text_ticker t && readable_shares f
                    | _, _ => false
                    end) p.

End Saving.

(** Two portfolios with the same tickers and, record by record, the same
    conversion of the share count to a float, whatever the type it is held
    in: the same number, or the same error. *)
Definition same_numbers (p p' : list Holding) : Prop :=
  map ticker p = map ticker p'
  /\ map (fun h => as_number (shares h)) p = map (fun h => as_number (shares h)) p'.

(** Two ordinary holdings. *)
Definition ordinary : list Holding :=
  [mkHolding AAPL (VFloat 1); mkHolding MSFT (VFloat 2.5)].

End MoreNotions.

(** ** One run of the script *)

Module Run.
Import Py Pandas Tracker.
Local Open Scope string_scope.

(** The state of the input widgets when the script runs: the file in the
    uploader, the submitted form, the remove button that was clicked, the
    value of the slider. *)
Record Inputs : Type := mkInputs {
  uploaded_file : option string;
  submitted : option (string * float);
  clicked : option nat;
  days_lookback : Z
}.

(** What the run puts on the page: the widgets of the handlers and the rows
    of the asset list. Titles, captions and the input widgets themselves are
    left out. *)
Inductive Element : Type :=
| shown (w : Widget)
| asset_row (i : nat) (item : Holding).

(** Lines 96-102: the rows are written one after the other; at the row whose
    button was clicked the loop stops. The result is the rows written and the
    row clicked, if it exists. *)
Fixpoint asset_rows (i : nat) (items : list Holding) (click : option nat)
  : list Element * option nat :=
  match items with
  | [] => ([], None)
  | item :: rest =>
      if match click with Some k => Nat.eqb k i | None => false end
      then ([asset_row i item], Some i)
      else let (rows, hit) := asset_rows (S i) rest click in
           (asset_row i item :: rows, hit)
  end.

Section Script.
Variable float_repr : float -> string.
Variable float_parse : string -> option float.
Variable history : string -> History.

(** Line 140: the answer of the provider for these tickers over the last
    so many days. *)
Variable yf_download : list Value -> Z -> Response.

(** Lines 23-104 *)
Definition main_sidebar (inp : Inputs) (st : Session)
  : Session * list Element * option nat :=
  let w1 := main_download float_repr st in
  let (st1, w2) := match uploaded_file inp with
                   | Some file => main_upload float_parse file st
                   | None => (st, [])
                   end in
  let (st2, w3) := match submitted inp with
                   | Some (text, shares_input) =>
                       main_add_stock history text shares_input st1
                   | None => (st1, [])
                   end in
  let (rows, hit) := match portfolio st2 with
                     | [] => ([shown (info "No stocks added yet.")], None)
                     | items => asset_rows 0 items (clicked inp)
                     end in
  (st2, (map shown (w1 ++ w2 ++ w3) ++ rows)%list, hit).

(** One run of [main]. After a click the row is popped and [st.rerun()]
    ends the run at once (the flag asks for the next run); otherwise the page
    below the sidebar follows. *)
Definition main (inp : Inputs) (st : Session) : Session * list Element * bool :=
  let '(st2, sidebar, hit) := main_sidebar inp st in
  match hit with
  | Some i => (main_remove i st2, sidebar, true)
  | None =>
      let (st3, w4) :=
        main_content (yf_download (tickers_of (portfolio st2)) (days_lookback inp)) st2 in
      (st3, (sidebar ++ map shown w4)%list, false)
  end.

End Script.

(** The events of a run, in the order the script handles them. *)
Definition events_of (inp : Inputs) : list Script.Event :=
  (match submitted inp with
   | Some (text, shares_input) => [Script.Submit text shares_input]
   | None => []
   end
   ++ match clicked inp with
      | Some i => [Script.Click i]
      | None => []
      end)%list.

(** A run with a file in the uploader and nothing else done. *)
Definition file_only (file : string) : Inputs := mkInputs (Some file) None None 365.

End Run.

(** * Properties *)

(** ** Binary64 arithmetic *)

Module F64Facts.
Import F64.

Lemma is_nan_SF f : is_nan f = true <-> Prim2SF f = S754_nan.
Proof.
  unfold is_nan. rewrite eqb_spec. split.
  - destruct (Prim2SF f) as [s|s| |s m e]; try reflexivity; unfold SFeqb; simpl.
    + discriminate.
    + destruct s; discriminate.
    + destruct s; rewrite Z.compare_refl, ?Pos.compare_cont_refl; simpl; discriminate.
  - intros ->. reflexivity.
Qed.

Lemma not_nan_SF f : is_nan f = false <-> Prim2SF f <> S754_nan.
Proof.
  rewrite <- is_nan_SF. destruct (is_nan f); split; congruence.
Qed.

Lemma is_infinity_SF f : is_infinity f = true <-> exists s, Prim2SF f = S754_infinity s.
Proof.
  unfold is_infinity. rewrite eqb_spec, abs_spec.
  change (Prim2SF infinity) with (S754_infinity false). split.
  - destruct (Prim2SF f) as [s|s| |s m e]; simpl; try discriminate. eauto.
  - intros [s ->]. reflexivity.
Qed.

Lemma is_zero_SF f : (f =? 0) = true <-> exists s, Prim2SF f = S754_zero s.
Proof.
  rewrite eqb_spec. change (Prim2SF 0) with (S754_zero false). split.
  - destruct (Prim2SF f) as [s|s| |s m e]; unfold SFeqb; simpl; try discriminate; eauto.
    + destruct s; discriminate.
    + destruct s; discriminate.
  - intros [s ->]. reflexivity.
Qed.


(** Rounding never invents a NaN: the mantissa stays non-negative through
    the shifts and the rounding step. *)
Lemma shr_1_nonneg mrs : (0 <= shr_m mrs)%Z -> (0 <= shr_m (shr_1 mrs))%Z.
Proof.
  destruct mrs as [m r s]; simpl. destruct m as [|q|q]; simpl; try lia.
  destruct q; simpl; lia.
Qed.

Lemma iter_shr_1_nonneg n :
  forall mrs, (0 <= shr_m mrs)%Z -> (0 <= shr_m (iter_pos shr_1 n mrs))%Z.
Proof.
  induction n; intros mrs H; simpl; auto using shr_1_nonneg.
Qed.

Lemma shr_fexp_nonneg m e l :
  (0 <= m)%Z -> (0 <= shr_m (fst (shr_fexp prec emax m e l)))%Z.
Proof.
  intros H. unfold shr_fexp, shr.
  assert (H0 : (0 <= shr_m (shr_record_of_loc m l))%Z)
    by (destruct l as [|[]]; simpl; exact H).
  destruct (_ - e)%Z; simpl; auto using iter_shr_1_nonneg.
Qed.

Lemma round_nearest_even_nonneg m l : (0 <= m)%Z -> (0 <= round_nearest_even m l)%Z.
Proof.
  intros H. destruct l as [|[]]; simpl; try lia. destruct (Z.even m); lia.
Qed.

Lemma binary_round_aux_not_nan s m e l :
  (0 <= m)%Z -> binary_round_aux prec emax s m e l <> S754_nan.
Proof.
  intros H. unfold binary_round_aux.
  pose proof (shr_fexp_nonneg m e l H) as H1.
  destruct (shr_fexp prec emax m e l) as [mrs1 e1]. simpl in H1.
  pose proof (shr_fexp_nonneg _ e1 loc_Exact
                (round_nearest_even_nonneg _ (loc_of_shr_record mrs1) H1)) as H2.
  destruct (shr_fexp prec emax _ e1 loc_Exact) as [mrs2 e2]. simpl in H2.
  destruct (shr_m mrs2); try discriminate; try lia.
  destruct (Z.leb _ _); discriminate.
Qed.

Lemma binary_normalize_not_nan m e sz : binary_normalize prec emax m e sz <> S754_nan.
Proof.
  unfold binary_normalize, binary_round. destruct m; try discriminate.
  - destruct (shl_align _ _ _). apply binary_round_aux_not_nan. lia.
  - destruct (shl_align _ _ _). apply binary_round_aux_not_nan. lia.
Qed.

(** A missing price stays missing when multiplied by the share count. *)
Lemma mul_nan_l x y : is_nan x = true -> is_nan (x * y) = true.
Proof.
  rewrite !is_nan_SF, mul_spec. intros ->. reflexivity.
Qed.


(** Adding a finite number to a number gives a number. *)
Lemma add_finite_notna a v :
  is_nan a = false -> is_nan v = false -> is_infinity v = false -> is_nan (a + v) = false.
Proof.
  rewrite !not_nan_SF, add_spec. intros Ha Hv Hi.
  assert (Hi' : forall s, Prim2SF v <> S754_infinity s).
  { intros s E. assert (is_infinity v = true) by (apply is_infinity_SF; eauto). congruence. }
  destruct (Prim2SF a) as [sa|sa| |sa ma ea], (Prim2SF v) as [sv|sv| |sv mv ev];
    unfold SF64add; simpl; try discriminate; try congruence;
    try (exfalso; eapply Hi'; reflexivity);
    try (destruct sa, sv; discriminate).
  apply binary_normalize_not_nan.
Qed.

(** Dividing by a zero: NaN for a zero or NaN numerator, an infinity for
    any other; scaling by 100 keeps either. *)
Lemma percent_of_zero_base d s :
  (s =? 0) = true ->
  if is_nan d || (d =? 0) then is_nan (d / s * 100) = true
  else is_infinity (d / s * 100) = true.
Proof.
  intros Hs. apply is_zero_SF in Hs. destruct Hs as [ss Hs].
  destruct (is_nan d) eqn:Hn; simpl.
  - apply is_nan_SF in Hn. rewrite is_nan_SF, mul_spec, div_spec, Hn. reflexivity.
  - destruct (d =? 0) eqn:Hz.
    + apply is_zero_SF in Hz. destruct Hz as [sd Hz].
      rewrite is_nan_SF, mul_spec, div_spec, Hz, Hs. reflexivity.
    + apply not_nan_SF in Hn.
      assert (Hz' : forall sd, Prim2SF d <> S754_zero sd).
      { intros sd E. assert ((d =? 0) = true) by (apply is_zero_SF; eauto). congruence. }
      rewrite is_infinity_SF, mul_spec, div_spec, Hs.
      change (Prim2SF 100) with (S754_finite false 7036874417766400 (-46)).
      destruct (Prim2SF d) as [sd|sd| |sd md ed]; simpl; try congruence; eauto.
Qed.



Lemma nansum_from_notna l :
  forall acc, is_nan acc = false ->
  Forall (fun v => is_infinity v = false) l ->
  is_nan (fold_left (fun a v => if is_nan v then a else a + v) l acc) = false.
Proof.
  induction l as [|v l IH]; intros acc Hacc Hl; simpl; [exact Hacc|].
  inversion Hl as [|? ? Hv Hl']; subst.
  destruct (is_nan v) eqn:Hn; apply IH; auto using add_finite_notna.
Qed.

(** No NaN total from cells that are finite or missing. *)
Lemma nansum_notna l :
  Forall (fun v => is_infinity v = false) l -> is_nan (nansum l) = false.
Proof. apply nansum_from_notna. reflexivity. Qed.


End F64Facts.

(** ** Labels, dictionaries, frames *)

Module PyFacts.
Import Py.

Lemma Value_eqb_eq a b : Value_eqb a b = true <-> a = b.
Proof.
  destruct a, b; simpl; split; intros H; try discriminate; try congruence.
  - apply String.eqb_eq in H. congruence.
  - injection H as ->. apply String.eqb_refl.
  - apply FloatAxioms.Leibniz.eqb_spec in H. congruence.
  - injection H as ->. apply FloatAxioms.Leibniz.eqb_spec. reflexivity.
  - apply Z.eqb_eq in H. congruence.
  - injection H as ->. apply Z.eqb_refl.
  - apply Bool.eqb_prop in H. congruence.
  - injection H as ->. apply Bool.eqb_reflx.
Qed.

Lemma Value_eqb_refl a : Value_eqb a a = true.
Proof. apply Value_eqb_eq. reflexivity. Qed.

Lemma Value_eqb_neq a b : Value_eqb a b = false <-> a <> b.
Proof.
  rewrite <- Value_eqb_eq. destruct (Value_eqb a b); split; congruence.
Qed.

Lemma Value_eqb_sym a b : Value_eqb a b = Value_eqb b a.
Proof.
  destruct (Value_eqb b a) eqn:E.
  - apply Value_eqb_eq in E. subst. apply Value_eqb_refl.
  - apply Value_eqb_neq in E. apply Value_eqb_neq. congruence.
Qed.

Lemma contains_In xs x : contains xs x = true <-> In x xs.
Proof.
  unfold contains. rewrite existsb_exists. split.
  - intros (y & Hy & E). apply Value_eqb_eq in E. congruence.
  - intros H. exists x. split; [exact H | apply Value_eqb_refl].
Qed.

Lemma contains_not_In xs x : contains xs x = false <-> ~ In x xs.
Proof.
  rewrite <- contains_In. destruct (contains xs x); split; congruence.
Qed.

Lemma dict_get_set_same k v d : dict_get k (dict_set k v d) = Some v.
Proof.
  induction d as [|[k' v'] d IH]; simpl.
  - rewrite Value_eqb_refl. reflexivity.
  - destruct (Value_eqb k' k) eqn:E; simpl; rewrite E; auto.
Qed.

Lemma dict_get_set_other k k' v d :
  k' <> k -> dict_get k' (dict_set k v d) = dict_get k' d.
Proof.
  intros Hne. induction d as [|[k0 v0] d IH]; simpl.
  - assert (Value_eqb k k' = false) as -> by (apply Value_eqb_neq; congruence).
    reflexivity.
  - destruct (Value_eqb k0 k) eqn:E; simpl.
    + apply Value_eqb_eq in E. subst k0.
      assert (Value_eqb k k' = false) as -> by (apply Value_eqb_neq; congruence).
      reflexivity.
    + destruct (Value_eqb k0 k'); auto.
Qed.

End PyFacts.

Module TrackerFacts.
Import Py Pandas Tracker Notions MoreNotions PyFacts F64Facts.

(** *** The share map *)

Lemma share_map_from t p :
  forall d,
    dict_get t (fold_left (fun d item => dict_set (ticker item) (shares item) d) p d)
    = match last_shares t p with
      | Some s => Some s
      | None => dict_get t d
      end.
Proof.
  induction p as [|h r IH]; intros d; simpl; [reflexivity|].
  rewrite IH. destruct (last_shares t r); [reflexivity|].
  destruct (Value_eqb (ticker h) t) eqn:E.
  - apply Value_eqb_eq in E. subst t. apply dict_get_set_same.
  - apply Value_eqb_neq in E. apply dict_get_set_other. congruence.
Qed.

Lemma share_map_get t p : dict_get t (share_map_of p) = last_shares t p.
Proof.
  unfold share_map_of. rewrite share_map_from. destruct (last_shares t p); reflexivity.
Qed.

Lemma last_shares_In t p s :
  last_shares t p = Some s -> exists h, In h p /\ ticker h = t /\ shares h = s.
Proof.
  induction p as [|h r IH]; simpl; [discriminate|].
  destruct (last_shares t r) as [s'|].
  - intros E. destruct (IH E) as (h' & ? & ? & ?). exists h'. auto.
  - destruct (Value_eqb (ticker h) t) eqn:E; [|discriminate].
    intros [= <-]. apply Value_eqb_eq in E. exists h. auto.
Qed.

Lemma last_shares_held t p :
  In t (tickers_of p) -> exists s, last_shares t p = Some s.
Proof.
  unfold tickers_of. induction p as [|h r IH]; simpl; [tauto|].
  intros [E | H].
  - destruct (last_shares t r); eauto.
    subst t. rewrite Value_eqb_refl. eauto.
  - destruct (IH H) as [s ->]. eauto.
Qed.

(** *** The loop of lines 152-154 *)

Lemma value_columns_spec df sm ts :
  forall pv pv',
    value_columns df sm ts pv = Ok pv' ->
    index pv' = index pv
    /\ (forall c, In c (columns pv') <-> In c (columns pv) \/ (In c ts /\ In c (columns df)))
    /\ (NoDup (columns pv) -> NoDup (columns pv'))
    /\ (forall c, In c ts -> In c (columns df) ->
          exists f, multiplier sm c = Some f /\ forall d, cell pv' c d = cell df c d * f)
    /\ (forall c, ~ (In c ts /\ In c (columns df)) -> cell pv' c = cell pv c).
Proof.
  induction ts as [|t ts IH]; intros pv pv' H; simpl in H.
  - injection H as <-. split; [reflexivity|]. split; [|split; [|split]].
    + intros c. simpl. tauto.
    + auto.
    + intros c [].
    + reflexivity.
  - destruct (contains (columns df) t) eqn:Hin.
    + apply contains_In in Hin.
      destruct (dict_get t sm) as [s|] eqn:Hget; [|discriminate].
      unfold mul_scalar in H. destruct (as_number s) as [f|] eqn:Hnum; [|discriminate].
      simpl in H. apply IH in H. destruct H as (Hidx & Hcols & Hnd & Hval & Hold).
      assert (Hset : forall c, In c (columns (set_column pv t (fun d => cell df t d * f)))
                               <-> In c (columns pv) \/ c = t).
      { intros c. simpl. destruct (contains (columns pv) t) eqn:Hc.
        - apply contains_In in Hc. split; [tauto|]. intros [?| ->]; auto.
        - rewrite in_app_iff. simpl. intuition congruence. }
      split; [exact Hidx|]. split; [|split; [|split]].
      * intros c. rewrite Hcols, Hset. simpl. split.
        -- intros [[?| ->]|[? ?]]; auto.
        -- intros [?|[[<- |?] ?]]; auto.
      * intros Hpv. apply Hnd. simpl. destruct (contains (columns pv) t) eqn:Hc; [exact Hpv|].
        apply contains_not_In in Hc. apply NoDup_app; auto.
        -- constructor; [intros []|constructor].
        -- intros x Hx [<- |[]]. contradiction.
      * intros c [E|Hc] Hdf; [subst c|apply Hval; assumption].
        destruct (contains ts t) eqn:Hts.
        -- apply contains_In in Hts. apply Hval; assumption.
        -- apply contains_not_In in Hts.
           exists f. split; [unfold multiplier; rewrite Hget, Hnum; reflexivity|].
           intros d. rewrite Hold by tauto. simpl. rewrite Value_eqb_refl. reflexivity.
      * intros c Hc. rewrite Hold by (simpl in Hc; tauto).
        simpl. assert (Value_eqb c t = false) as ->; [|reflexivity].
        apply Value_eqb_neq. intros ->. apply Hc. simpl. auto.
    + apply contains_not_In in Hin. apply IH in H.
      destruct H as (Hidx & Hcols & Hnd & Hval & Hold).
      split; [exact Hidx|]. split; [|split; [exact Hnd|split]].
      * intros c. rewrite Hcols. simpl. split.
        -- intros [?|[? ?]]; auto.
        -- intros [?|[[<- |?] ?]]; auto. contradiction.
      * intros c [E|Hc] Hdf; [subst c; contradiction|]. apply Hval; assumption.
      * intros c Hc. apply Hold. intros [? ?]. apply Hc. simpl. auto.
Qed.

(** *** The body of the [try] *)

Lemma filter_all {A} (f : A -> bool) l :
  (forall x, In x l -> f x = true) -> filter f l = l.
Proof.
  induction l as [|a l IH]; simpl; intros H; [reflexivity|].
  rewrite (H a) by auto. f_equal. apply IH. auto.
Qed.

Lemma last_In {A} (l : list A) :
  forall d, l <> [] -> In (last l d) l.
Proof.
  induction l as [|a l IH]; intros d Hne; [congruence|].
  destruct l as [|b l]; [left; reflexivity|].
  right. apply (IH d). discriminate.
Qed.

Lemma last_date_In idx d : last_date idx = Some d -> In d idx.
Proof.
  destruct idx as [|d0 rest]; simpl; [discriminate|]. intros [= <-].
  destruct rest as [|a rest]; [left; reflexivity|].
  right. apply last_In. discriminate.
Qed.

(** What a successful run computed, statement by statement. *)
Lemma main_valuation_inv p resp v :
  main_valuation p resp = Ok v ->
  exists df pv d0 rest,
    normalize (tickers_of p) resp = Ok df
    /\ value_columns df (share_map_of p) (tickers_of p) (empty_frame (index df)) = Ok pv
    /\ index df = d0 :: rest
    /\ index pv = index df
    /\ portfolio_value_df v = set_column pv total_label (sum_axis1 pv)
    /\ current_total v = sum_axis1 pv (last rest d0)
    /\ start_total v = sum_axis1 pv d0
    /\ delta v = current_total v - start_total v
    /\ delta_percent v = delta v / start_total v * 100
    /\ individual_df v = drop_column (portfolio_value_df v) total_label
    /\ current_composition v
       = map (fun c => (c, cell (portfolio_value_df v) c (last rest d0)))
             (columns (individual_df v)).
Proof.
  unfold main_valuation. intros H.
  destruct (normalize (tickers_of p) resp) as [df|e] eqn:Hn; [|discriminate].
  cbn [bind] in H.
  destruct (value_columns df (share_map_of p) (tickers_of p) (empty_frame (index df)))
    as [pv|e] eqn:Hv; [|discriminate].
  cbn [bind] in H.
  pose proof (value_columns_spec _ _ _ _ _ Hv) as (Hidx & _).
  cbn [empty_frame index] in Hidx.
  unfold iloc_last, iloc_first, iloc_last_row in H.
  cbn [set_column drop_column index] in H. rewrite Hidx in H.
  destruct (index df) as [|d0 rest] eqn:Hdf; [discriminate|].
  cbn [last_date bind] in H.
  assert (Ht : forall d, cell (set_column pv total_label (sum_axis1 pv)) total_label d
                         = sum_axis1 pv d).
  { intros d. cbn [set_column cell]. rewrite Value_eqb_refl. reflexivity. }
  injection H as <-. exists df, pv, d0, rest.
  cbn [portfolio_value_df current_total start_total delta delta_percent
       individual_df current_composition].
  rewrite ?Ht. repeat split; auto; rewrite Hdf; assumption.
Qed.

(** The value table of a successful run, when no held ticker is called
    like the total column. *)
Lemma value_table p resp v :
  main_valuation p resp = Ok v ->
  ~ In total_label (tickers_of p) ->
  exists df,
    normalize (tickers_of p) resp = Ok df
    /\ index (portfolio_value_df v) = index df
    /\ NoDup (asset_columns (portfolio_value_df v))
    /\ (forall c, In c (asset_columns (portfolio_value_df v))
                  <-> In c (tickers_of p) /\ In c (columns df))
    /\ (forall c, In c (asset_columns (portfolio_value_df v)) ->
          exists f, multiplier (share_map_of p) c = Some f
                    /\ forall d, cell (portfolio_value_df v) c d = cell df c d * f)
    /\ (forall d, cell (portfolio_value_df v) total_label d
                  = F64.nansum (map (fun c => cell (portfolio_value_df v) c d)
                                    (asset_columns (portfolio_value_df v)))).
Proof.
  intros H Hnt.
  destruct (main_valuation_inv _ _ _ H)
    as (df & pv & d0 & rest & Hn & Hv & Hdf & Hidx & Hpv & _).
  pose proof (value_columns_spec _ _ _ _ _ Hv) as (_ & Hcols & Hnd & Hval & _).
  cbn [empty_frame columns] in Hcols, Hnd.
  assert (Hcols' : forall c, In c (columns pv) <-> In c (tickers_of p) /\ In c (columns df)).
  { intros c. rewrite Hcols. simpl. tauto. }
  assert (Hno : ~ In total_label (columns pv)).
  { intros Hin. apply Hcols' in Hin. tauto. }
  assert (Hassets : asset_columns (portfolio_value_df v) = columns pv).
  { rewrite Hpv. unfold asset_columns. cbn [drop_column set_column columns].
    apply contains_not_In in Hno. rewrite Hno. rewrite filter_app.
    cbn [filter]. rewrite Value_eqb_refl. cbn [negb]. rewrite app_nil_r. apply filter_all.
    intros c Hc. apply negb_true_iff, Value_eqb_neq. intros ->.
    apply contains_not_In in Hno. contradiction. }
  assert (Hcell : forall c, In c (columns pv) ->
                            cell (portfolio_value_df v) c = cell pv c).
  { intros c Hc. rewrite Hpv. cbn [set_column cell].
    assert (Value_eqb c total_label = false) as ->; [|reflexivity].
    apply Value_eqb_neq. intros ->. contradiction. }
  exists df. rewrite Hassets. split; [exact Hn|]. split; [|split; [|split; [|split]]].
  - rewrite Hpv. exact Hidx.
  - apply Hnd. constructor.
  - exact Hcols'.
  - intros c Hc. rewrite (Hcell c Hc). apply Hval; apply Hcols'; assumption.
  - intros d. rewrite Hpv at 1. cbn [set_column cell]. rewrite Value_eqb_refl.
    unfold sum_axis1, row. f_equal. apply map_ext_in. intros c Hc.
    rewrite (Hcell c Hc). reflexivity.
Qed.

(** The totals at both ends of the index, and the last row. *)
Lemma valuation_ends p resp v :
  main_valuation p resp = Ok v ->
  exists d0 rest,
    index (portfolio_value_df v) = d0 :: rest
    /\ start_total v = cell (portfolio_value_df v) total_label d0
    /\ current_total v = cell (portfolio_value_df v) total_label (last rest d0)
    /\ current_composition v
       = map (fun c => (c, cell (portfolio_value_df v) c (last rest d0)))
             (asset_columns (portfolio_value_df v)).
Proof.
  intros H.
  destruct (main_valuation_inv _ _ _ H)
    as (df & pv & d0 & rest & _ & _ & Hdf & Hidx & Hpv & Hc & Hs & _ & _ & Hind & Hcomp).
  assert (Ht : forall d, cell (portfolio_value_df v) total_label d = sum_axis1 pv d).
  { intros d. rewrite Hpv. cbn [set_column cell]. rewrite Value_eqb_refl. reflexivity. }
  exists d0, rest. rewrite !Ht. split; [|split; [exact Hs|split; [exact Hc|]]].
  - rewrite Hpv. cbn [set_column index]. congruence.
  - rewrite Hcomp, Hind. reflexivity.
Qed.

(** *** When the valuation returns *)

Lemma value_columns_total df sm ts :
  (forall t, In t ts -> In t (columns df) -> exists f, multiplier sm t = Some f) ->
  forall pv, exists pv', value_columns df sm ts pv = Ok pv'.
Proof.
  induction ts as [|t ts IH]; intros Hnum pv; simpl; [eauto|].
  destruct (contains (columns df) t) eqn:Hin.
  - apply contains_In in Hin. destruct (Hnum t (or_introl eq_refl) Hin) as [f Hf].
    unfold multiplier in Hf. destruct (dict_get t sm) as [s|]; [|discriminate].
    unfold mul_scalar. destruct (as_number s) as [g|e]; [|discriminate].
    cbn [bind]. apply IH. intros; apply Hnum; simpl; auto.
  - apply IH. intros; apply Hnum; simpl; auto.
Qed.

Lemma numeric_shares_spec p df :
  numeric_shares p df = true
  <-> forall t, In t (tickers_of p) -> In t (columns df) ->
                exists f, multiplier (share_map_of p) t = Some f.
Proof.
  unfold numeric_shares. rewrite forallb_forall. split.
  - intros H t Ht Hc. specialize (H t Ht). apply contains_In in Hc. rewrite Hc in H.
    destruct (multiplier (share_map_of p) t); [eauto|discriminate].
  - intros H t Ht. destruct (contains (columns df) t) eqn:Hc; [|reflexivity].
    apply contains_In in Hc. destruct (H t Ht Hc) as [f ->]. reflexivity.
Qed.

Lemma main_valuation_runs p resp df :
  normalize (tickers_of p) resp = Ok df ->
  numeric_shares p df = true ->
  (index df <> [] -> exists v, main_valuation p resp = Ok v)
  /\ (index df = [] -> main_valuation p resp = Raise IndexError).
Proof.
  intros Hn Hnum. rewrite numeric_shares_spec in Hnum.
  destruct (value_columns_total df (share_map_of p) (tickers_of p) Hnum
              (empty_frame (index df))) as [pv Hv].
  pose proof (value_columns_spec _ _ _ _ _ Hv) as (Hidx & _).
  cbn [empty_frame index] in Hidx.
  unfold main_valuation. rewrite Hn. cbn [bind]. rewrite Hv. cbn [bind].
  unfold iloc_last, iloc_first, iloc_last_row. cbn [set_column drop_column index].
  rewrite Hidx. split; intros Hrows.
  - destruct (index df) as [|d0 rest]; [congruence|]. cbn [last_date bind]. eauto.
  - rewrite Hrows. reflexivity.
Qed.

End TrackerFacts.

(** ** The claims of the specification *)

Import Py Pandas Tracker Notions MoreNotions Samples PyFacts F64Facts TrackerFacts.

(** *** The model on the scenarios of the specification *)

(** Section 8: ten AAPL at 100 then 110, five MSFT at 200 then 210. *)
Example scenario_two_stocks :
  summary (main_valuation two_stocks two_days)
  = Some ([(1%Z, [1000; 1000; 2000]); (2%Z, [1100; 1050; 2150])],
          2000, 2150, 150, 7.5, [(AAPL, 1100); (MSFT, 1050)]).
Proof. vm_compute. reflexivity. Qed.

Example scenario_unknown_ticker :
  summary (main_valuation with_unknown aapl_only)
  = Some ([(1%Z, [1000; 1000]); (2%Z, [1100; 1100])],
          1000, 1100, 100, 10, [(AAPL, 1100)]).
Proof. vm_compute. reflexivity. Qed.

Example scenario_no_rows :
  main_valuation two_stocks no_trading = Raise IndexError.
Proof. vm_compute. reflexivity. Qed.

Example scenario_series :
  summary (main_valuation one_stock aapl_series)
  = Some ([(1%Z, [1000; 1000]); (3%Z, [1100; 1100])],
          1000, 1100, 100, 10, [(AAPL, 1100)]).
Proof. vm_compute. reflexivity. Qed.

Example add_lowercase_ticker :
  main_add_stock (fun _ => HistoryRows) "msft"%string 5 (mkSession one_stock)
  = (mkSession [mkHolding AAPL (VFloat 10); mkHolding MSFT (VFloat 5)],
     [success "Added MSFT"%string]).
Proof. vm_compute. reflexivity. Qed.

Example add_held_ticker :
  main_add_stock (fun _ => HistoryRows) "aapl"%string 5 (mkSession one_stock)
  = (mkSession one_stock, [warning "AAPL is already in your portfolio."%string]).
Proof. vm_compute. reflexivity. Qed.

Example quoted_fields :
  Csv.lines_of (file ["ticker,shares"; String Csv.dquote ("BRK,B" ++ String Csv.dquote ",2.5")]%string)
  = Ok [["ticker"; "shares"]; ["BRK,B"; "2.5"]]%string.
Proof. vm_compute. reflexivity. Qed.

Example unterminated_quote :
  Csv.lines_of (String Csv.dquote "AAPL,1") = Raise ParserError.
Proof. vm_compute. reflexivity. Qed.

(** The byte order mark and the line of blanks are passed over, the
    numbering of the data lines is their index, and the blank before the
    share count of AAPL is no part of the number. *)
Example upload_of_numbered_rows :
  main_upload parse_excerpt numbered_rows (mkSession [])
  = (mkSession [mkHolding AAPL (VInt 1); mkHolding MSFT (VInt 2)],
     [success "Portfolio loaded successfully!"%string]).
Proof. vm_compute. reflexivity. Qed.

Example upload_of_other_encoding :
  main_upload parse_excerpt latin1_file (mkSession one_stock)
  = (mkSession one_stock, [error_exc "Error loading file: "%string UnicodeDecodeError]).
Proof. vm_compute. reflexivity. Qed.

Example upload_with_longer_later_line :
  main_upload parse_excerpt (file ["ticker,shares"; "AAPL,1"; "MSFT,2,3"]%string)
              (mkSession one_stock)
  = (mkSession one_stock, [error_exc "Error loading file: "%string ParserError]).
Proof. vm_compute. reflexivity. Qed.

Example scenario_huge_share_count :
  main_valuation huge_shares aapl_only = Raise OverflowError.
Proof. vm_compute. reflexivity. Qed.

Example save_then_load_ordinary_tickers :
  let p := [mkHolding AAPL (VFloat 1); mkHolding MSFT (VFloat 2.5)] in
  main_download repr_excerpt (mkSession p)
  = [download_button (file ["ticker,shares"; "AAPL,1.0"; "MSFT,2.5"]%string)]
  /\ fst (main_upload parse_excerpt (file ["ticker,shares"; "AAPL,1.0"; "MSFT,2.5"]%string)
                      (mkSession []))
     = mkSession p.
Proof. split; vm_compute; reflexivity. Qed.

Lemma normalize_inv ts resp df :
  normalize ts resp = Ok df ->
  exists raw, promote ts resp = Ok raw /\ df = dropna_all raw.
Proof.
  unfold normalize. destruct (promote ts resp) as [raw|e]; simpl; [|discriminate].
  intros [= <-]. eauto.
Qed.



Lemma multiplier_valid p c :
  valid_shares p = true -> In c (tickers_of p) ->
  exists f, multiplier (share_map_of p) c = Some f /\ F64.positive_finite f = true.
Proof.
  intros Hv Hc. unfold multiplier. rewrite share_map_get.
  destruct (last_shares_held _ _ Hc) as [s Hs]. rewrite Hs.
  destruct (last_shares_In _ _ _ Hs) as (h & Hh & _ & <-).
  unfold valid_shares in Hv. rewrite forallb_forall in Hv. specialize (Hv h Hh).
  destruct (as_number (shares h)) as [f|]; [eauto|discriminate].
Qed.



(** The file [ticker,shares / AAPL,] loads as a holding of AAPL with a
    missing share count; so does the file with infinite share counts. *)
Example upload_without_share_count :
  main_upload parse_excerpt missing_shares_file (mkSession [])
  = (mkSession missing_shares, [success "Portfolio loaded successfully!"%string]).
Proof. vm_compute. reflexivity. Qed.

Example upload_of_infinite_share_counts :
  main_upload parse_excerpt infinite_shares_file (mkSession [])
  = (mkSession infinite_shares, [success "Portfolio loaded successfully!"%string]).
Proof. vm_compute. reflexivity. Qed.

Example scenario_missing_shares :
  summary (main_valuation missing_shares aapl_only)
  = Some ([(1%Z, [nan; 0]); (2%Z, [nan; 0])], 0, 0, 0, nan, [(AAPL, nan)]).
Proof. vm_compute. reflexivity. Qed.

Example scenario_infinite_shares :
  summary (main_valuation infinite_shares msft_late)
  = Some ([(1%Z, [infinity; nan; infinity]); (2%Z, [infinity; neg_infinity; nan])],
          infinity, nan, nan, nan, [(AAPL, infinity); (MSFT, neg_infinity)]).
Proof. vm_compute. reflexivity. Qed.





(** C3, as the code has it. The change is the current total minus the start
    total and the percentage is the change over the start total times 100;
    when the start total is zero nothing is flagged and nothing is raised:
    the percentage is NaN for a change that is zero or NaN, and an infinity
    for any other change. *)
Theorem percent_change_is_unguarded p resp v :
  main_valuation p resp = Ok v ->
  delta v = current_total v - start_total v
  /\ delta_percent v = delta v / start_total v * 100
  /\ ((start_total v =? 0) = true ->
      if is_nan (delta v) || (delta v =? 0)
      then is_nan (delta_percent v) = true
      else is_infinity (delta_percent v) = true).
Proof.
  intros H.
  destruct (main_valuation_inv _ _ _ H)
    as (df & pv & d0 & rest & _ & _ & _ & _ & _ & _ & _ & Hd & Hp & _).
  split; [exact Hd|]. split; [exact Hp|].
  intros Hz. rewrite Hp. apply percent_of_zero_base. exact Hz.
Qed.

(** A first price of zero: the percentage is an infinity. *)
Lemma percent_change_is_unguarded_witness :
  exists v,
    main_valuation one_stock zero_start = Ok v
    /\ is_infinity (delta_percent v) = true.
Proof.
  run_valuation v E. exists v. split; [reflexivity|].
  destruct (percent_change_is_unguarded one_stock zero_start v E) as (_ & _ & H).
  assert (Hs : (start_total v =? 0) = true)
    by (vm_compute in E; injection E as <-; reflexivity).
  assert (Hd : is_nan (delta v) || (delta v =? 0) = false)
    by (vm_compute in E; injection E as <-; reflexivity).
  specialize (H Hs). rewrite Hd in H. exact H.
Defined.

(** C3, as the specification states it, fails: with a first price of zero the
    start total is zero and the percentage shown is an infinity. *)
Lemma zero_start_total_is_not_flagged :
  ~ (forall p resp v,
       main_valuation p resp = Ok v ->
       (start_total v =? 0) = true ->
       is_nan (delta_percent v) = false /\ is_infinity (delta_percent v) = false).
Proof.
  intros claim.
  destruct (main_valuation one_stock zero_start) as [v|e] eqn:E;
    [| vm_compute in E; discriminate E].
  assert (Hs : (start_total v =? 0) = true)
    by (vm_compute in E; injection E as <-; reflexivity).
  destruct (claim one_stock zero_start v E Hs) as [_ Hinf].
  vm_compute in E. injection E as <-. vm_compute in Hinf. discriminate Hinf.
Qed.

(** C4, as the code has it. The start total is the total at the first date
    of the value table and the current total the total at its last date,
    missing or not. When every per-ticker value is a finite number or
    missing, no total is missing, so that these are the earliest and the
    latest date with a total. *)
Theorem start_and_current_totals p resp v :
  main_valuation p resp = Ok v ->
  exists d0 rest,
    index (portfolio_value_df v) = d0 :: rest
    /\ start_total v = cell (portfolio_value_df v) total_label d0
    /\ current_total v = cell (portfolio_value_df v) total_label (last rest d0)
    /\ (contains (tickers_of p) total_label = false ->
        finite_or_missing (portfolio_value_df v) = true ->
        dates_with_total (portfolio_value_df v) = d0 :: rest).
Proof.
  intros H.
  destruct (valuation_ends _ _ _ H) as (d0 & rest & Hidx & Hs & Hc & _).
  exists d0, rest. split; [exact Hidx|]. split; [exact Hs|]. split; [exact Hc|].
  intros Hnt Hfin. apply contains_not_In in Hnt.
  destruct (value_table _ _ _ H Hnt) as (df & _ & _ & _ & _ & _ & Htot).
  unfold dates_with_total. rewrite <- Hidx. apply filter_all. intros d Hd.
  unfold F64.notna. apply negb_true_iff. rewrite Htot. apply nansum_notna.
  unfold finite_or_missing in Hfin. rewrite forallb_forall in Hfin.
  specialize (Hfin d Hd). rewrite forallb_forall in Hfin.
  apply Forall_forall. intros x Hx. apply in_map_iff in Hx.
  destruct Hx as (c & <- & Hc'). apply negb_true_iff. auto.
Qed.

(** Two stocks over two days, all values finite or missing. *)
Lemma start_and_current_totals_witness :
  exists v,
    main_valuation two_stocks msft_gap = Ok v
    /\ exists d0 d1,
         hd_error (dates_with_total (portfolio_value_df v)) = Some d0
         /\ last_date (dates_with_total (portfolio_value_df v)) = Some d1
         /\ start_total v = cell (portfolio_value_df v) total_label d0
         /\ current_total v = cell (portfolio_value_df v) total_label d1.
Proof.
  run_valuation v E. exists v. split; [reflexivity|].
  destruct (start_and_current_totals two_stocks msft_gap v E)
    as (d0 & rest & _ & Hs & Hc & Hall).
  assert (Hfin : finite_or_missing (portfolio_value_df v) = true)
    by (vm_compute in E; injection E as <-; reflexivity).
  exists d0, (last rest d0). rewrite (Hall eq_refl Hfin).
  repeat split; assumption.
Defined.

(** C4, as the specification states it, fails: with the infinite share
    counts an uploaded file can hold, the total of the last day is missing
    (an infinity less an infinity), and it is the current total, while the
    latest date with a total is the first day. *)
Lemma current_total_can_be_missing :
  ~ (forall p resp v,
       main_valuation p resp = Ok v ->
       contains (tickers_of p) total_label = false ->
       answers (tickers_of p) resp = true ->
       forall d0 d1,
         hd_error (dates_with_total (portfolio_value_df v)) = Some d0 ->
         last_date (dates_with_total (portfolio_value_df v)) = Some d1 ->
         start_total v = cell (portfolio_value_df v) total_label d0
         /\ current_total v = cell (portfolio_value_df v) total_label d1).
Proof.
  intros claim.
  destruct (main_valuation infinite_shares msft_late) as [v|e] eqn:E;
    [| vm_compute in E; discriminate E].
  assert (Hdates : dates_with_total (portfolio_value_df v) = [1%Z])
    by (vm_compute in E; injection E as <-; reflexivity).
  destruct (claim _ _ _ E eq_refl eq_refl 1%Z 1%Z) as [_ Hcur];
    [rewrite Hdates; reflexivity | rewrite Hdates; reflexivity |].
  assert (Hnan : is_nan (current_total v) = true)
    by (vm_compute in E; injection E as <-; reflexivity).
  assert (Hinf : is_nan (cell (portfolio_value_df v) total_label 1%Z) = false)
    by (vm_compute in E; injection E as <-; reflexivity).
  rewrite Hcur, Hinf in Hnan. discriminate Hnan.
Qed.

(** C5, as the code has it. The composition lists, once each, the held
    tickers that are columns of the price table, each with its value at the
    latest date of the table; a ticker without a price at that date is listed
    with a missing value (not left out, and not as zero); the values that are
    not missing sum to the current total. *)
Theorem composition_lists_priced_tickers p resp v :
  main_valuation p resp = Ok v ->
  contains (tickers_of p) total_label = false ->
  exists df dl,
    normalize (tickers_of p) resp = Ok df
    /\ last_date (index df) = Some dl
    /\ NoDup (map fst (current_composition v))
    /\ (forall t, In t (map fst (current_composition v))
                  <-> In t (tickers_of p) /\ In t (columns df))
    /\ (forall t x, In (t, x) (current_composition v) ->
          x = cell (portfolio_value_df v) t dl
          /\ (is_nan (cell df t dl) = true -> is_nan x = true))
    /\ F64.nansum (map snd (current_composition v)) = current_total v.
Proof.
  intros H Hnt. apply contains_not_In in Hnt.
  destruct (value_table _ _ _ H Hnt) as (df & Hn & Hidx & Hnd & Hcols & Hval & Htot).
  destruct (valuation_ends _ _ _ H) as (d0 & rest & Hi & _ & Hc & Hcomp).
  assert (Hfst : map fst (current_composition v) = asset_columns (portfolio_value_df v)).
  { rewrite Hcomp, map_map. cbn [fst]. apply map_id. }
  exists df, (last rest d0). split; [exact Hn|]. split; [|split; [|split; [|split]]].
  - rewrite <- Hidx, Hi. reflexivity.
  - rewrite Hfst. exact Hnd.
  - intros t. rewrite Hfst. apply Hcols.
  - intros t x Hin. rewrite Hcomp in Hin. apply in_map_iff in Hin.
    destruct Hin as (c & [= -> <-] & Hc'). split; [reflexivity|].
    destruct (Hval t Hc') as (f & _ & Hcell). rewrite Hcell. apply mul_nan_l.
  - rewrite Hc, Htot, Hcomp, map_map. reflexivity.
Qed.

(** MSFT has no price on the last day and is listed all the same. *)
Lemma composition_lists_priced_tickers_witness :
  exists v df dl,
    main_valuation two_stocks msft_gap = Ok v
    /\ normalize (tickers_of two_stocks) msft_gap = Ok df
    /\ last_date (index df) = Some dl
    /\ (In MSFT (map fst (current_composition v)))
    /\ F64.nansum (map snd (current_composition v)) = current_total v.
Proof.
  run_valuation v E.
  destruct (composition_lists_priced_tickers two_stocks msft_gap v E eq_refl)
    as (df & dl & Hn & Hl & _ & Hin & _ & Hsum).
  exists v, df, dl. repeat split; try assumption.
  apply Hin. vm_compute in Hn. injection Hn as <-.
  split; [right; left; reflexivity | right; left; reflexivity].
Defined.

(** C5, as the specification states it, fails: a ticker with no value at the
    latest date is in the composition all the same. *)
Lemma composition_keeps_tickers_without_current_value :
  ~ (forall p resp v,
       main_valuation p resp = Ok v ->
       forall t x, In (t, x) (current_composition v) -> is_nan x = false).
Proof.
  intros claim.
  destruct (main_valuation two_stocks msft_gap) as [v|e] eqn:E;
    [| vm_compute in E; discriminate E].
  assert (Hin : In (MSFT, nan) (current_composition v))
    by (vm_compute in E; injection E as <-; right; left; reflexivity).
  specialize (claim _ _ _ E _ _ Hin). discriminate claim.
Qed.

(** *** An absent ticker *)

Lemma tickers_without t p :
  tickers_of (without t p) = filter (fun c => negb (Value_eqb c t)) (tickers_of p).
Proof.
  unfold tickers_of, without. induction p as [|h r IH]; simpl; [reflexivity|].
  destruct (Value_eqb (ticker h) t); simpl; rewrite IH; reflexivity.
Qed.

Lemma last_shares_without t c p :
  c <> t -> last_shares c (without t p) = last_shares c p.
Proof.
  intros Hne. unfold without. induction p as [|h r IH]; simpl; [reflexivity|].
  destruct (Value_eqb (ticker h) t) eqn:E; simpl; rewrite IH; [|reflexivity].
  apply Value_eqb_eq in E.
  assert (Value_eqb (ticker h) c = false) as -> by (apply Value_eqb_neq; congruence).
  destruct (last_shares c r); reflexivity.
Qed.

Lemma value_columns_without df sm sm' t ts :
  (forall c, c <> t -> dict_get c sm = dict_get c sm') ->
  contains (columns df) t = false ->
  forall pv,
    value_columns df sm ts pv
    = value_columns df sm' (filter (fun c => negb (Value_eqb c t)) ts) pv.
Proof.
  intros Hsm Habs. induction ts as [|c ts IH]; intros pv; simpl; [reflexivity|].
  destruct (Value_eqb c t) eqn:E; simpl.
  - apply Value_eqb_eq in E. subst c. rewrite Habs. apply IH.
  - apply Value_eqb_neq in E. rewrite (Hsm c E).
    destruct (contains (columns df) c); [|apply IH].
    destruct (dict_get c sm'); [|reflexivity].
    destruct (mul_scalar (cell df c) v); simpl; [apply IH|reflexivity].
Qed.

Lemma normalize_without t ts resp df :
  normalize ts resp = Ok df ->
  contains (columns df) t = false ->
  normalize (filter (fun c => negb (Value_eqb c t)) ts) resp = Ok df.
Proof.
  intros H Habs. destruct resp as [s|raw]; [|exact H].
  unfold normalize in *. simpl in *.
  destruct ts as [|t0 ts]; [discriminate|]. simpl in H. injection H as <-.
  cbn [dropna_all to_frame columns contains existsb] in Habs.
  rewrite orb_false_r in Habs. rewrite Value_eqb_sym in Habs.
  simpl. rewrite Habs. reflexivity.
Qed.

Lemma main_content_never_warns resp st :
  existsb is_warning (snd (main_content resp st)) = false.
Proof.
  unfold main_content. destruct (portfolio st); [reflexivity|].
  destruct (main_valuation _ resp); reflexivity.
Qed.

(** C6, as the code has it. A held ticker that is no column of the price
    table is skipped: the run is the run of the portfolio without it, so it
    completes whenever the rest does; the ticker is no column of the value
    table, hence no part of the total, and no entry of the composition. No
    warning is shown for it. *)
Theorem absent_ticker_is_left_out p resp df t :
  normalize (tickers_of p) resp = Ok df ->
  contains (columns df) t = false ->
  Value_eqb t total_label = false ->
  main_valuation p resp = main_valuation (without t p) resp
  /\ (forall v, main_valuation p resp = Ok v ->
        ~ In t (columns (portfolio_value_df v))
        /\ ~ In t (map fst (current_composition v)))
  /\ (forall st, existsb is_warning (snd (main_content resp st)) = false).
Proof.
  intros Hn Habs Hne. split; [|split].
  - unfold main_valuation. rewrite tickers_without.
    rewrite (normalize_without _ _ _ _ Hn Habs), Hn. cbn [bind].
    rewrite (value_columns_without df (share_map_of p) (share_map_of (without t p)) t);
      [reflexivity| |exact Habs].
    intros c Hc. rewrite !share_map_get. symmetry. apply last_shares_without. exact Hc.
  - intros v H.
    destruct (main_valuation_inv _ _ _ H)
      as (df' & pv & d0 & rest & Hn' & Hv & _ & _ & Hpv & _ & _ & _ & _ & Hind & Hcomp).
    assert (df' = df) by congruence. subst df'.
    pose proof (value_columns_spec _ _ _ _ _ Hv) as (_ & Hcols & _).
    assert (Hno : ~ In t (columns (portfolio_value_df v))).
    { rewrite Hpv. cbn [set_column columns]. intros Hin.
      assert (Hin' : In t (columns pv ++ [total_label]))
        by (destruct (contains (columns pv) total_label);
            [apply in_or_app; left; exact Hin | exact Hin]).
      apply in_app_or in Hin'. destruct Hin' as [Hin'|[E|[]]].
      - apply Hcols in Hin'. cbn [empty_frame columns] in Hin'.
        apply contains_not_In in Habs. destruct Hin' as [[]|[_ ?]]. contradiction.
      - apply Value_eqb_neq in Hne. congruence. }
    split; [exact Hno|].
    rewrite Hcomp, map_map. cbn [fst]. rewrite map_id, Hind. cbn [drop_column columns].
    intros Hin. apply filter_In in Hin. tauto.
  - apply main_content_never_warns.
Qed.

(** ZZZZ is held, and the provider returned prices for AAPL only. *)
Lemma absent_ticker_is_left_out_witness :
  main_valuation with_unknown aapl_only = main_valuation (without ZZZZ with_unknown) aapl_only
  /\ existsb is_warning (snd (main_content aapl_only (mkSession with_unknown))) = false.
Proof.
  assert (Hn : normalize (tickers_of with_unknown) aapl_only
               = Ok (dropna_all (table [AAPL] [(1%Z, [100]); (2%Z, [110])])))
    by reflexivity.
  destruct (absent_ticker_is_left_out with_unknown aapl_only _ ZZZZ Hn eq_refl eq_refl)
    as (H1 & _ & H3).
  split; [exact H1 | exact (H3 (mkSession with_unknown))].
Defined.

(** C6, as the specification states it, fails: a portfolio with a ticker the
    price table does not have is valued and shown without any warning. *)
Lemma unknown_ticker_raises_no_warning :
  ~ (forall p resp df t st,
       portfolio st = p ->
       normalize (tickers_of p) resp = Ok df ->
       In t (tickers_of p) ->
       ~ In t (columns df) ->
       existsb is_warning (snd (main_content resp st)) = true).
Proof.
  intros claim.
  assert (Hn : normalize (tickers_of with_unknown) aapl_only
               = Ok (dropna_all (table [AAPL] [(1%Z, [100]); (2%Z, [110])])))
    by reflexivity.
  specialize (claim with_unknown aapl_only _ ZZZZ (mkSession with_unknown) eq_refl Hn).
  rewrite main_content_never_warns in claim.
  assert (H : false = true); [|discriminate H].
  apply claim.
  - right. left. reflexivity.
  - simpl. intros [E|[]]. discriminate E.
Qed.



(** *** Saving and loading *)

Lemma infer_column_length float_parse fields :
  List.length (Csv.infer_column float_parse fields) = List.length fields.
Proof.
  unfold Csv.infer_column.
  repeat match goal with |- context [if ?b then _ else _] => destruct b end;
    apply length_map.
Qed.

(** Added tickers stay unique: the form refuses a ticker that is held. *)
Lemma add_stock_keeps_tickers_unique history text shares_input st :
  NoDup (map ticker (portfolio st)) ->
  NoDup (map ticker (portfolio (fst (main_add_stock history text shares_input st)))).
Proof.
  intros Hnd. unfold main_add_stock.
  destruct (negb (String.eqb (upper text) "")); [|exact Hnd].
  destruct (existsb _ (portfolio st)) eqn:Hheld; [exact Hnd|].
  destruct (history (upper text)); try exact Hnd.
  cbn [fst portfolio]. rewrite map_app. cbn [map ticker].
  apply NoDup_app; [exact Hnd | constructor; [intros []|constructor] |].
  intros x Hx [<- |[]]. apply in_map_iff in Hx. destruct Hx as (h & Hh & Hin).
  assert (Hex : existsb (fun d => eq_str (ticker d) (upper text)) (portfolio st) = true).
  { apply existsb_exists. exists h. split; [exact Hin|]. rewrite Hh. simpl.
    apply String.eqb_refl. }
  congruence.
Qed.

(** C8 fails on the upload path: the two rows of the file become two holdings
    of one ticker, under any reading of float text. *)
Theorem upload_keeps_duplicate_tickers float_parse st :
  exists t s1 s2,
    portfolio (fst (main_upload float_parse duplicate_rows st))
    = [mkHolding t s1; mkHolding t s2].
Proof.
  assert (Hdec : Csv.decode duplicate_rows = Ok duplicate_rows) by (vm_compute; reflexivity).
  assert (Hlines : Csv.lines_of duplicate_rows
                   = Ok [["ticker"; "shares"]; ["AAPL"; "1"]; ["AAPL"; "2"]]%string)
    by (vm_compute; reflexivity).
  assert (Hshares : Csv.infer_column float_parse ["1"; "2"]%string = [VInt 1; VInt 2])
    by reflexivity.
  assert (Htickers : exists t, Csv.infer_column float_parse ["AAPL"; "AAPL"]%string = [t; t]).
  { unfold Csv.infer_column, Csv.parse_number, Csv.parse_float.
    cbn [forallb map].
    change (Csv.parse_int "AAPL"%string) with (@None Z).
    change (Csv.strip "AAPL"%string) with "AAPL"%string.
    change (Csv.is_na "AAPL"%string) with false.
    change (Csv.parse_inf "AAPL"%string) with (@None float).
    change (Csv.parse_bool "AAPL"%string) with (@None bool).
    cbn [forallb Csv.is_some andb orb map].
    destruct (float_parse "AAPL"%string); cbn [forallb Csv.is_some andb orb map]; eauto. }
  destruct Htickers as [t Ht]. exists t, (VInt 1), (VInt 2).
  unfold main_upload, Csv.read_csv. rewrite Hdec. cbn [bind]. rewrite Hlines.
  cbn [bind Csv.table_width List.length Nat.max Nat.sub existsb Nat.ltb Nat.leb orb
       seq combine map fst snd nth Nat.add].
  rewrite Ht, Hshares. reflexivity.
Qed.

(** C9. The page below the sidebar only reads the session: the portfolio
    after the valuation is the portfolio before it, whatever the prices. *)
Theorem valuation_keeps_the_portfolio resp st :
  fst (main_content resp st) = st
  /\ portfolio (fst (main_content resp st)) = portfolio st.
Proof.
  assert (H : fst (main_content resp st) = st).
  { unfold main_content. destruct (portfolio st) as [|h r]; [reflexivity|].
    destruct (main_valuation (h :: r) resp); reflexivity. }
  split; [exact H | rewrite H; reflexivity].
Qed.

(** C10 fails for a ticker that reads as a missing-value marker: the saved
    file of a portfolio holding NA is loaded back with NaN for its ticker,
    whenever [1.0] is written as it is in Python. *)
Theorem saved_NA_ticker_is_not_restored float_repr float_parse st :
  float_repr 1 = "1.0"%string ->
  exists csv,
    main_download float_repr (mkSession nano_labs) = [download_button csv]
    /\ map ticker (portfolio (fst (main_upload float_parse csv st))) = [VFloat nan].
Proof.
  intros Hrepr. exists (Csv.to_csv float_repr (portfolio_frame nano_labs)).
  split; [reflexivity|].
  assert (Hcsv : Csv.to_csv float_repr (portfolio_frame nano_labs)
                 = file ["ticker,shares"; "NA,1.0"]%string).
  { unfold Csv.to_csv, portfolio_frame, nano_labs, Csv.column_text.
    cbn -[Csv.write_row]. rewrite Hrepr. reflexivity. }
  rewrite Hcsv. unfold main_upload, Csv.read_csv.
  replace (Csv.lines_of (file ["ticker,shares"; "NA,1.0"]%string))
    with (Ok [["ticker"; "shares"]; ["NA"; "1.0"]]%string)
    by (vm_compute; reflexivity).
  cbn -[Csv.infer_column].
  replace (Csv.infer_column float_parse ["NA"]%string) with [VFloat nan].
  - pose proof (infer_column_length float_parse ["1.0"]%string) as Hlen.
    destruct (Csv.infer_column float_parse ["1.0"]%string) as [|x [|y l]];
      try discriminate Hlen.
    reflexivity.
  - unfold Csv.infer_column, Csv.parse_number. cbn.
    destruct (Csv.parse_float float_parse "NA"%string); reflexivity.
Qed.

(** With the excerpt of Python's float text. *)
Lemma saved_NA_ticker_is_not_restored_witness :
  exists csv,
    main_download repr_excerpt (mkSession nano_labs) = [download_button csv]
    /\ map ticker (portfolio (fst (main_upload parse_excerpt csv (mkSession [])))) = [VFloat nan].
Proof.
  apply (saved_NA_ticker_is_not_restored repr_excerpt parse_excerpt (mkSession [])).
  reflexivity.
Defined.

(** * More of the program *)

(** ** The add form and the remove buttons *)

Import Script.

Lemma upper_char_idempotent c : upper_char (upper_char c) = upper_char c.
Proof. destruct c as [[] [] [] [] [] [] [] []]; reflexivity. Qed.

Lemma upper_idempotent s : upper (upper s) = upper s.
Proof.
  induction s as [|c s IH]; simpl; [reflexivity|].
  rewrite upper_char_idempotent, IH. reflexivity.
Qed.

(** What a submission does to the portfolio: nothing, or one more holding
    at the end. *)
Lemma add_stock_cases history text shares_input st :
  let st' := fst (main_add_stock history text shares_input st) in
  st' = st
  \/ (st' = mkSession (portfolio st ++ [mkHolding (VStr (upper text)) (VFloat shares_input)])
      /\ upper text <> ""%string
      /\ existsb (fun d => eq_str (ticker d) (upper text)) (portfolio st) = false
      /\ history (upper text) = HistoryRows).
Proof.
  unfold main_add_stock.
  destruct (String.eqb (upper text) "") eqn:Hempty; simpl; [left; destruct st; reflexivity|].
  destruct (existsb _ (portfolio st)) eqn:Hheld; [left; reflexivity|].
  destruct (history (upper text)) eqn:Hh; try (left; reflexivity).
  right. repeat split; try reflexivity. apply String.eqb_neq. exact Hempty.
Qed.

Lemma split_at {A} (l : list A) :
  forall i, (i < List.length l)%nat ->
  exists a, nth_error l i = Some a /\ l = firstn i l ++ a :: skipn (S i) l.
Proof.
  induction l as [|x l IH]; intros i Hi; simpl in Hi; [lia|].
  destruct i as [|i]; simpl.
  - exists x. split; reflexivity.
  - destruct (IH i) as (a & Ha & Hl); [lia|]. exists a. split; [exact Ha|].
    f_equal. exact Hl.
Qed.

Lemma remove_keeps_unique i st :
  (i < List.length (portfolio st))%nat ->
  NoDup (tickers_of (portfolio st)) ->
  NoDup (tickers_of (portfolio (main_remove i st))).
Proof.
  intros Hi Hnd. unfold tickers_of, main_remove in *. cbn [portfolio].
  destruct (split_at (portfolio st) i Hi) as (a & _ & Hl).
  rewrite Hl, map_app in Hnd. cbn [map] in Hnd. apply NoDup_remove_1 in Hnd.
  rewrite map_app. exact Hnd.
Qed.

(** X1. The remove button of row [i] takes out that row and no other: the
    portfolio is one holding shorter, the rows before [i] stay where they are,
    the rows after it move up by one, and unique tickers stay unique. *)
Theorem remove_takes_out_one_row i st :
  (i < List.length (portfolio st))%nat ->
  S (List.length (portfolio (main_remove i st))) = List.length (portfolio st)
  /\ (forall j, nth_error (portfolio (main_remove i st)) j
                = nth_error (portfolio st) (if Nat.ltb j i then j else S j))
  /\ (NoDup (tickers_of (portfolio st)) ->
      NoDup (tickers_of (portfolio (main_remove i st)))).
Proof.
  intros Hi. split; [|split].
  - unfold main_remove. cbn [portfolio].
    rewrite length_app, length_firstn, length_skipn. lia.
  - intros j. unfold main_remove. cbn [portfolio].
    assert (Hlen : List.length (firstn i (portfolio st)) = i)
      by (rewrite length_firstn; lia).
    destruct (Nat.ltb j i) eqn:Hj.
    + apply Nat.ltb_lt in Hj. rewrite nth_error_app1 by lia.
      rewrite nth_error_firstn. apply Nat.ltb_lt in Hj. rewrite Hj. reflexivity.
    + apply Nat.ltb_ge in Hj. rewrite nth_error_app2 by lia.
      rewrite nth_error_skipn, Hlen. f_equal. lia.
  - apply remove_keeps_unique. exact Hi.
Qed.

(** The first of two rows is removed. *)
Lemma remove_takes_out_one_row_witness :
  S (List.length (portfolio (main_remove 0 (mkSession two_stocks)))) = 2%nat
  /\ nth_error (portfolio (main_remove 0 (mkSession two_stocks))) 0
     = Some (mkHolding MSFT (VFloat 5)).
Proof.
  assert (Hi : (0 < List.length (portfolio (mkSession two_stocks)))%nat)
    by (simpl; lia).
  destruct (remove_takes_out_one_row 0 (mkSession two_stocks) Hi) as (H1 & H2 & _).
  split; [exact H1 | exact (H2 0%nat)].
Defined.



Lemma form_holding_valid p :
  forallb form_holding p = true ->
  valid_shares p = true /\ contains (tickers_of p) total_label = false.
Proof.
  intros H. rewrite forallb_forall in H. split.
  - unfold valid_shares. apply forallb_forall. intros h Hh. specialize (H h Hh).
    unfold form_holding in H. destruct (ticker h); try discriminate.
    destruct (shares h); try discriminate. simpl.
    apply andb_true_iff in H. tauto.
  - apply contains_not_In. unfold tickers_of. intros Hin. apply in_map_iff in Hin.
    destruct Hin as (h & Ht & Hh). specialize (H h Hh).
    unfold form_holding in H. rewrite Ht in H. unfold total_label in H.
    destruct (shares h); discriminate.
Qed.

Lemma handle_keeps_form history ev st :
  in_range [ev] = true ->
  NoDup (tickers_of (portfolio st)) /\ forallb form_holding (portfolio st) = true ->
  NoDup (tickers_of (portfolio (handle history ev st)))
  /\ forallb form_holding (portfolio (handle history ev st)) = true.
Proof.
  intros Hr [Hnd Hform]. destruct ev as [text shares_input|i]; cbn [handle].
  - split; [apply add_stock_keeps_tickers_unique; exact Hnd|].
    destruct (add_stock_cases history text shares_input st) as [-> |(-> & Hne & _)];
      [exact Hform|].
    cbn [portfolio]. rewrite forallb_app, Hform. cbn [forallb form_holding ticker shares].
    rewrite upper_idempotent, String.eqb_refl.
    apply String.eqb_neq in Hne. rewrite Hne.
    cbn in Hr. rewrite andb_true_r in Hr. rewrite Hr. reflexivity.
  - destruct (Nat.ltb i (List.length (portfolio st))) eqn:Hi; [|tauto].
    apply Nat.ltb_lt in Hi. split; [apply remove_keeps_unique; assumption|].
    unfold main_remove. cbn [portfolio]. rewrite forallb_app.
    rewrite <- (firstn_skipn i (portfolio st)), forallb_app in Hform.
    apply andb_true_iff in Hform. destruct Hform as [H1 H2]. rewrite H1. cbn [andb].
    destruct (split_at (portfolio st) i Hi) as (a & _ & Hl).
    assert (Hsk : skipn i (portfolio st) = a :: skipn (S i) (portfolio st)).
    { rewrite Hl at 1. rewrite skipn_app, skipn_all2 by (rewrite length_firstn; lia).
      rewrite length_firstn. replace (i - Nat.min i (List.length (portfolio st)))%nat with 0%nat by lia.
      reflexivity. }
    rewrite Hsk in H2. cbn [forallb] in H2. apply andb_true_iff in H2. tauto.
Qed.

Lemma replay_keeps_form history events :
  forall st,
    in_range events = true ->
    NoDup (tickers_of (portfolio st)) /\ forallb form_holding (portfolio st) = true ->
    NoDup (tickers_of (portfolio (replay history events st)))
    /\ forallb form_holding (portfolio (replay history events st)) = true.
Proof.
  induction events as [|ev evs IH]; intros st Hevs Hst; [exact Hst|].
  cbn [replay fold_left]. cbn [in_range forallb] in Hevs.
  apply andb_true_iff in Hevs. destruct Hevs as [Hev Hevs].
  apply IH; [exact Hevs|]. apply handle_keeps_form; [|exact Hst].
  cbn [in_range forallb]. rewrite Hev. reflexivity.
Qed.

Lemma new_session_form history events :
  in_range events = true ->
  forallb form_holding (portfolio (replay history events new_session)) = true.
Proof.
  intros Hr. apply (replay_keeps_form history events new_session Hr).
  split; [constructor | reflexivity].
Qed.

(** X3. Whatever is submitted and clicked in the sidebar of a new session,
    with share counts in the range of the number input, the portfolio keeps
    its form: tickers are unique, each an upper-case non-empty text held with
    a positive finite float; so the share counts are valid and no ticker is
    called like the total column. *)
Theorem sidebar_keeps_the_portfolio_well_formed history events :
  in_range events = true ->
  NoDup (tickers_of (portfolio (replay history events new_session)))
  /\ forallb form_holding (portfolio (replay history events new_session)) = true
  /\ valid_shares (portfolio (replay history events new_session)) = true
  /\ contains (tickers_of (portfolio (replay history events new_session))) total_label
     = false.
Proof.
  intros Hr.
  destruct (replay_keeps_form history events new_session Hr) as [Hnd Hform].
  { split; [constructor | reflexivity]. }
  destruct (form_holding_valid _ Hform) as [Hv Ht].
  repeat split; assumption.
Qed.

(** Three submissions, one refused, and a removal. *)
Lemma sidebar_keeps_the_portfolio_well_formed_witness :
  valid_shares (portfolio (replay (fun _ => HistoryRows) busy_afternoon new_session)) = true
  /\ tickers_of (portfolio (replay (fun _ => HistoryRows) busy_afternoon new_session))
     = [VStr "MSFT"; VStr "GOOG"].
Proof.
  destruct (sidebar_keeps_the_portfolio_well_formed (fun _ => HistoryRows) busy_afternoon
              eq_refl) as (_ & _ & Hv & _).
  split; [exact Hv | reflexivity].
Defined.

(** ** The valuation *)

Import MoreNotions.

(** X4. The valuation returns a result exactly when the normalized price
    table has a row and every held ticker with a price column has a number
    for its share count, one that a float can hold; otherwise it raises (a
    row of an uploaded file whose share count is text, or an integer beyond
    the floats, is enough). *)
Theorem valuation_succeeds_exactly_when p resp df :
  normalize (tickers_of p) resp = Ok df ->
  (exists v, main_valuation p resp = Ok v)
  <-> (index df <> [] /\ numeric_shares p df = true).
Proof.
  intros Hn. split.
  - intros [v H].
    destruct (main_valuation_inv _ _ _ H)
      as (df' & pv & d0 & rest & Hn' & Hv & Hdf & _).
    assert (df' = df) by congruence. subst df'. split; [congruence|].
    apply numeric_shares_spec. intros t Ht Hc.
    pose proof (value_columns_spec _ _ _ _ _ Hv) as (_ & _ & _ & Hval & _).
    destruct (Hval t Ht Hc) as (f & Hf & _). eauto.
  - intros [Hrows Hnum]. apply (main_valuation_runs p resp df Hn Hnum). exact Hrows.
Qed.

(** A share count in words: the run raises although there are prices. *)
Lemma valuation_succeeds_exactly_when_witness :
  ~ (exists v, main_valuation ten_in_words aapl_only = Ok v).
Proof.
  assert (Hn : normalize (tickers_of ten_in_words) aapl_only
               = Ok (dropna_all (table [AAPL] [(1%Z, [100]); (2%Z, [110])])))
    by reflexivity.
  intros H. apply (valuation_succeeds_exactly_when _ _ _ Hn) in H.
  destruct H as [_ H]. vm_compute in H. discriminate H.
Defined.

(** X5. Each held ticker with a price column is valued once, by its price
    times the share count of its last record in the portfolio: earlier
    records of the same ticker are ignored, not added up. *)
Theorem value_is_price_times_last_share_count p resp v :
  main_valuation p resp = Ok v ->
  contains (tickers_of p) total_label = false ->
  exists df,
    normalize (tickers_of p) resp = Ok df
    /\ NoDup (asset_columns (portfolio_value_df v))
    /\ forall t, In t (tickers_of p) -> In t (columns df) ->
         In t (asset_columns (portfolio_value_df v))
         /\ exists s f,
              last_shares t p = Some s /\ as_number s = Ok f
              /\ forall d, cell (portfolio_value_df v) t d = cell df t d * f.
Proof.
  intros H Hnt. apply contains_not_In in Hnt.
  destruct (value_table _ _ _ H Hnt) as (df & Hn & _ & Hnd & Hcols & Hval & _).
  exists df. split; [exact Hn|]. split; [exact Hnd|].
  intros t Ht Hc. assert (Ha : In t (asset_columns (portfolio_value_df v)))
    by (apply Hcols; auto).
  split; [exact Ha|]. destruct (Hval t Ha) as (f & Hf & Hcell).
  unfold multiplier in Hf. rewrite share_map_get in Hf.
  destruct (last_shares t p) as [s|]; [|discriminate].
  destruct (as_number s) as [g|e] eqn:Hg; [|discriminate].
  injection Hf as ->. eauto.
Qed.

(** AAPL is held twice, with 1 and then 2 shares: it is valued with 2. *)
Lemma value_is_price_times_last_share_count_witness :
  exists v,
    main_valuation aapl_twice two_days = Ok v
    /\ (forall d, cell (portfolio_value_df v) AAPL d
                  = cell (table [AAPL; MSFT] [(1%Z, [100; 200]); (2%Z, [110; 210])]) AAPL d
                    * F64.of_Z 2).
Proof.
  run_valuation v E. exists v. split; [reflexivity|].
  destruct (value_is_price_times_last_share_count aapl_twice two_days v E eq_refl)
    as (df & Hn & _ & H).
  vm_compute in Hn. injection Hn as <-.
  destruct (H AAPL (or_introl eq_refl) (or_introl eq_refl)) as (_ & s & f & Hs & Hf & Hc).
  vm_compute in Hs. injection Hs as <-.
  assert (Hg : as_number (VInt 2) = Ok (F64.of_Z 2)) by reflexivity.
  rewrite Hg in Hf. injection Hf as <-. exact Hc.
Defined.

Lemma filter_idempotent {A} (f : A -> bool) l : filter f (filter f l) = filter f l.
Proof.
  induction l as [|a l IH]; simpl; [reflexivity|].
  destruct (f a) eqn:E; simpl; rewrite ?E, IH; reflexivity.
Qed.

Lemma dropna_all_idempotent df : dropna_all (dropna_all df) = dropna_all df.
Proof.
  unfold dropna_all. cbn [index columns cell]. f_equal. apply filter_idempotent.
Qed.

(** X6. Dropping the empty rows is done once and for all: the normalized
    table is its own normal form, and valuing the portfolio on it gives the
    very result of the run on the provider's answer. *)
Theorem normalized_table_is_a_fixed_point p resp df :
  normalize (tickers_of p) resp = Ok df ->
  normalize (tickers_of p) (RFrame df) = Ok df
  /\ main_valuation p (RFrame df) = main_valuation p resp.
Proof.
  intros Hn.
  assert (Hfix : normalize (tickers_of p) (RFrame df) = Ok df).
  { destruct (normalize_inv _ _ _ Hn) as (raw & _ & ->).
    unfold normalize. cbn [promote bind]. rewrite dropna_all_idempotent. reflexivity. }
  split; [exact Hfix|]. unfold main_valuation. rewrite Hfix, Hn. reflexivity.
Qed.

(** The Series of AAPL with a day without a price. *)
Lemma normalized_table_is_a_fixed_point_witness :
  main_valuation one_stock
    (RFrame (dropna_all (to_frame (series [(1%Z, 100); (2%Z, nan); (3%Z, 110)]) AAPL)))
  = main_valuation one_stock aapl_series.
Proof.
  apply (normalized_table_is_a_fixed_point one_stock aapl_series). reflexivity.
Defined.

Lemma increasing_filter f l : increasing l = true -> increasing (filter f l) = true.
Proof.
  induction l as [|d l IH]; simpl; [reflexivity|].
  intros H. apply andb_true_iff in H. destruct H as [Hd Hl].
  destruct (f d); simpl; [|auto].
  rewrite (IH Hl), andb_true_r. apply forallb_forall. intros x Hx.
  apply filter_In in Hx. rewrite forallb_forall in Hd. apply Hd. tauto.
Qed.

Lemma last_cons {A} (rest : list A) :
  forall a d0, last (a :: rest) d0 = last rest a.
Proof.
  induction rest as [|b rest IH]; intros a d0; [reflexivity|].
  change (last (a :: b :: rest) d0) with (last (b :: rest) d0).
  rewrite (IH b d0), (IH b a). reflexivity.
Qed.

Lemma increasing_bounds d0 rest :
  increasing (d0 :: rest) = true ->
  forall d, In d (d0 :: rest) -> (d0 <= d <= last rest d0)%Z.
Proof.
  revert d0. induction rest as [|a rest IH]; intros d0 H d Hd.
  - destruct Hd as [<- |[]]. simpl. lia.
  - cbn [increasing] in H. apply andb_true_iff in H. destruct H as [Hd0 Hrest].
    rewrite forallb_forall in Hd0.
    rewrite last_cons.
    assert (Ha : (d0 < a)%Z) by (apply Z.ltb_lt, Hd0; left; reflexivity).
    destruct Hd as [<- |Hd].
    + specialize (IH a Hrest a (or_introl eq_refl)). lia.
    + specialize (IH a Hrest d Hd). lia.
Qed.

Lemma normalize_index ts resp df :
  normalize ts resp = Ok df ->
  exists f, index df = filter f (response_index resp).
Proof.
  intros H. destruct (normalize_inv _ _ _ H) as (raw & Hraw & ->).
  cbn [dropna_all index].
  assert (Hidx : index raw = response_index resp).
  { destruct resp as [s|df']; simpl in Hraw.
    - destruct ts; [discriminate|]. injection Hraw as <-. reflexivity.
    - injection Hraw as <-. reflexivity. }
  rewrite Hidx. eauto.
Qed.

(** X7. When the dates of the provider's answer are strictly increasing, so
    are the dates of the value table, and the start total and the current
    total are the totals at its earliest and at its latest date. *)
Theorem totals_are_at_the_earliest_and_latest_dates p resp v :
  main_valuation p resp = Ok v ->
  increasing (response_index resp) = true ->
  increasing (index (portfolio_value_df v)) = true
  /\ exists d0 d1,
       In d0 (index (portfolio_value_df v))
       /\ In d1 (index (portfolio_value_df v))
       /\ (forall d, In d (index (portfolio_value_df v)) -> (d0 <= d <= d1)%Z)
       /\ start_total v = cell (portfolio_value_df v) total_label d0
       /\ current_total v = cell (portfolio_value_df v) total_label d1.
Proof.
  intros H Hinc.
  destruct (valuation_ends _ _ _ H) as (d0 & rest & Hidx & Hs & Hc & _).
  destruct (main_valuation_inv _ _ _ H)
    as (df & pv & _ & _ & Hn & _ & _ & Hpv & Hvals & _).
  assert (Hsorted : increasing (index (portfolio_value_df v)) = true).
  { rewrite Hvals. cbn [set_column index]. rewrite Hpv.
    destruct (normalize_index _ _ _ Hn) as [f ->]. apply increasing_filter. exact Hinc. }
  split; [exact Hsorted|]. exists d0, (last rest d0). rewrite Hidx in *.
  split; [left; reflexivity|]. split.
  - destruct rest as [|a rest]; [left; reflexivity|]. right. apply last_In. discriminate.
  - split; [apply increasing_bounds; exact Hsorted|]. split; assumption.
Qed.

(** Three days, the second without a price. *)
Lemma totals_are_at_the_earliest_and_latest_dates_witness :
  exists v,
    main_valuation one_stock aapl_series = Ok v
    /\ increasing (index (portfolio_value_df v)) = true.
Proof.
  run_valuation v E. exists v. split; [reflexivity|].
  exact (proj1 (totals_are_at_the_earliest_and_latest_dates
                  one_stock aapl_series v E eq_refl)).
Defined.

Lemma add_zero_l_eqb v : is_nan v = false -> (0 + v =? v) = true.
Proof.
  rewrite not_nan_SF, eqb_spec, add_spec. change (Prim2SF 0) with (S754_zero false).
  destruct (Prim2SF v) as [s|s| |s m e]; intros H; try congruence.
  - destruct s; reflexivity.
  - destruct s; reflexivity.
  - unfold SF64add, SFadd, SFeqb, SFcompare.
    destruct s; rewrite Z.compare_refl, Pos.compare_cont_refl; reflexivity.
Qed.

(** X8. With a single per-ticker column the total is that column: at every
    date where the ticker has a value, the total equals it as a number. *)
Theorem single_column_total_is_the_column p resp v c :
  main_valuation p resp = Ok v ->
  contains (tickers_of p) total_label = false ->
  asset_columns (portfolio_value_df v) = [c] ->
  forall d,
    is_nan (cell (portfolio_value_df v) c d) = false ->
    (cell (portfolio_value_df v) total_label d =? cell (portfolio_value_df v) c d) = true.
Proof.
  intros H Hnt Hone d Hv. apply contains_not_In in Hnt.
  destruct (value_table _ _ _ H Hnt) as (df & _ & _ & _ & _ & _ & Htot).
  rewrite Htot, Hone. unfold F64.nansum. cbn [map fold_left]. rewrite Hv.
  apply add_zero_l_eqb. exact Hv.
Qed.

(** One stock over two days. *)
Lemma single_column_total_is_the_column_witness :
  exists v,
    main_valuation one_stock aapl_only = Ok v
    /\ (cell (portfolio_value_df v) total_label 2%Z
        =? cell (portfolio_value_df v) AAPL 2%Z) = true.
Proof.
  run_valuation v E. exists v. split; [reflexivity|].
  apply (single_column_total_is_the_column one_stock aapl_only v AAPL E eq_refl);
    vm_compute in E; injection E as <-; reflexivity.
Defined.

(** ** Saving and loading the portfolio *)

Module CsvFacts.
Import Py Csv.

Lemma append_assoc (a b c : string) :
  String.append (String.append a b) c = String.append a (String.append b c).
Proof. induction a as [|x a IH]; simpl; [reflexivity|]. rewrite IH. reflexivity. Qed.

Lemma append_nil_r (a : string) : String.append a EmptyString = a.
Proof. induction a as [|x a IH]; simpl; [reflexivity|]. rewrite IH. reflexivity. Qed.

Lemma concat_cons (x : string) (xs : list string) :
  String.concat EmptyString (x :: xs) = String.append x (String.concat EmptyString xs).
Proof.
  destruct xs as [|y xs]; simpl; [rewrite append_nil_r; reflexivity|reflexivity].
Qed.

Lemma not_special c :
  special c = false ->
  Ascii.eqb c comma = false /\ Ascii.eqb c dquote = false
  /\ Ascii.eqb c LF = false /\ Ascii.eqb c CR = false.
Proof.
  unfold special. intros H.
  apply orb_false_iff in H. destruct H as [H Hcr].
  apply orb_false_iff in H. destruct H as [H Hlf].
  apply orb_false_iff in H. tauto.
Qed.

(** The rest of an unquoted field. *)
Lemma read_plain s :
  forall cs fs rest,
    existsb special (list_ascii_of_string s) = false ->
    tokenize (String.append s rest) (mkReader InField cs fs)
    = tokenize rest (mkReader InField (rev (list_ascii_of_string s) ++ cs) fs).
Proof.
  induction s as [|c s IH]; intros cs fs rest H; [reflexivity|].
  cbn [list_ascii_of_string existsb] in H. apply orb_false_iff in H.
  destruct H as [Hc Hs]. destruct (not_special c Hc) as (H1 & H2 & H3 & H4).
  cbn [String.append tokenize]. unfold read_char, in_field. cbn [mode].
  rewrite H1, H3, H4. cbn [orb push fld row]. rewrite (IH _ _ _ Hs).
  cbn [list_ascii_of_string rev]. rewrite <- app_assoc. reflexivity.
Qed.

(** A field that needs no quoting is read as it was written, up to the
    separator that follows; only an empty field leaves the reader at the
    start of a field. *)
Lemma read_field s fs rest :
  needs_quoting s = false ->
  exists m,
    tokenize (String.append s rest) (mkReader StartField [] fs)
    = tokenize rest (mkReader m (rev (list_ascii_of_string s)) fs)
    /\ (m = InField \/ (m = StartField /\ s = EmptyString)).
Proof.
  unfold needs_quoting. destruct s as [|c s]; intros H.
  - exists StartField. split; [reflexivity|]. right. split; reflexivity.
  - exists InField. split; [|left; reflexivity].
    cbn [list_ascii_of_string existsb] in H. apply orb_false_iff in H.
    destruct H as [Hc Hs]. destruct (not_special c Hc) as (H1 & H2 & H3 & H4).
    cbn [String.append tokenize]. unfold read_char, start_field. cbn [mode].
    rewrite H1, H2, H3, H4. cbn [orb push fld row]. rewrite (read_plain _ _ _ _ Hs).
    reflexivity.
Qed.

Lemma close_read s fs :
  close_field (rev (list_ascii_of_string s)) fs = s :: fs.
Proof.
  unfold close_field. rewrite rev_involutive, string_of_list_ascii_of_string. reflexivity.
Qed.

(** The blanks a line starts with, and what follows them up to the first
    comma, make the first field. *)
Lemma read_blanks s :
  forall cs rest,
    existsb special (list_ascii_of_string s) = false ->
    tokenize (String.append s (String comma rest)) (mkReader WhitespaceLine cs [])
    = tokenize rest
        (mkReader StartField [] (close_field (rev (list_ascii_of_string s) ++ cs) [])).
Proof.
  assert (Hcomma : forall m cs rest,
             m = WhitespaceLine \/ m = InField ->
             tokenize (String comma rest) (mkReader m cs [])
             = tokenize rest (mkReader StartField [] (close_field cs []))).
  { intros m cs rest [-> | ->]; reflexivity. }
  induction s as [|c s IH]; intros cs rest H.
  - apply Hcomma. left. reflexivity.
  - cbn [list_ascii_of_string existsb] in H. apply orb_false_iff in H.
    destruct H as [Hc Hs]. destruct (not_special c Hc) as (H1 & H2 & H3 & H4).
    cbn [String.append tokenize]. unfold read_char. cbn [mode]. rewrite H3, H4.
    cbn [list_ascii_of_string rev]. rewrite <- app_assoc. cbn [app].
    destruct (is_blank c).
    + cbn [push fld row]. apply (IH _ _ Hs).
    + unfold in_field. rewrite H1, H3, H4. cbn [orb push fld row].
      rewrite (read_plain _ _ _ _ Hs). apply Hcomma. right. reflexivity.
Qed.

(** The first field of a line, when a comma follows it. *)
Lemma read_first s rest :
  needs_quoting s = false ->
  tokenize (String.append s (String comma rest)) start
  = tokenize rest (mkReader StartField [] [s]).
Proof.
  unfold needs_quoting. intros H. rewrite <- (close_read s []).
  destruct s as [|c s]; [reflexivity|].
  cbn [list_ascii_of_string existsb] in H. apply orb_false_iff in H.
  destruct H as [Hc Hs]. destruct (not_special c Hc) as (H1 & H2 & H3 & H4).
  cbn [String.append tokenize]. unfold read_char, start, start_record. cbn [mode].
  rewrite H3, H4. cbn [list_ascii_of_string rev]. destruct (is_blank c).
  - apply (read_blanks _ _ _ Hs).
  - unfold start_field, start. rewrite H1, H2, H3, H4. cbn [orb push fld row].
    rewrite (read_plain _ _ _ _ Hs). reflexivity.
Qed.

(** A line of two plain fields is read as these two fields. *)
Lemma read_row a b rest :
  needs_quoting a = false -> needs_quoting b = false ->
  tokenize (String.append (write_row [a; b]) rest) start
  = (more <- tokenize rest start ;; Ok ([a; b] :: more)).
Proof.
  intros Ha Hb. unfold write_row, write_field. cbn [map String.concat]. rewrite Ha, Hb.
  rewrite !append_assoc. cbn [String.append].
  rewrite (read_first a _ Ha).
  destruct (read_field b [a] (String LF rest) Hb) as (mb & -> & Hmb).
  cbn [tokenize]. destruct Hmb as [-> |[-> ->]]; unfold read_char; cbn;
    unfold close_field; rewrite ?rev_involutive, ?string_of_list_ascii_of_string;
    reflexivity.
Qed.

(** The lines of a file of two-field rows without quoting. *)
Lemma read_rows (rows : list (string * string)) :
  forallb (fun r => negb (needs_quoting (fst r)) && negb (needs_quoting (snd r))) rows = true ->
  tokenize (String.concat EmptyString (map (fun r => write_row [fst r; snd r]) rows)) start
  = Ok (map (fun r => [fst r; snd r]) rows).
Proof.
  induction rows as [|[a b] rows IH]; intros H; [reflexivity|].
  cbn [forallb fst snd] in H. apply andb_true_iff in H. destruct H as [Hab Hrows].
  apply andb_true_iff in Hab. destruct Hab as [Ha Hb].
  apply negb_true_iff in Ha, Hb.
  cbn [map fst snd]. rewrite concat_cons, (read_row a b _ Ha Hb), (IH Hrows).
  reflexivity.
Qed.

(** UTF-8 text followed by UTF-8 text. *)
Lemma utf8_run_app a :
  forall b st,
    utf8_run (String.append a b) st
    = match utf8_run a st with
      | Some st' => utf8_run b st'
      | None => None
      end.
Proof.
  induction a as [|c a IH]; intros b st; [reflexivity|].
  cbn [String.append utf8_run]. destruct (utf8_step st c); [apply IH|reflexivity].
Qed.

Lemma utf8_app a b : utf8 a = true -> utf8 (String.append a b) = utf8 b.
Proof.
  unfold utf8. rewrite utf8_run_app.
  destruct (utf8_run a Boundary) as [[|lo hi more]|]; try discriminate. reflexivity.
Qed.

Lemma utf8_row a b : utf8 a = true -> utf8 b = true ->
  needs_quoting a = false -> needs_quoting b = false ->
  utf8 (write_row [a; b]) = true.
Proof.
  intros Ha Hb Hqa Hqb. unfold write_row, write_field. cbn [map String.concat].
  rewrite Hqa, Hqb, append_assoc, (utf8_app _ _ Ha). cbn [String.append].
  change (String comma (String.append b (String LF EmptyString)))
    with (String.append (String comma EmptyString) (String.append b (String LF EmptyString))).
  rewrite (utf8_app (String comma EmptyString)) by reflexivity.
  rewrite (utf8_app _ _ Hb). reflexivity.
Qed.

Lemma utf8_rows (rows : list (string * string)) :
  forallb (fun r => utf8 (write_row [fst r; snd r])) rows = true ->
  utf8 (String.concat EmptyString (map (fun r => write_row [fst r; snd r]) rows)) = true.
Proof.
  induction rows as [|r rows IH]; intros H; [reflexivity|].
  cbn [forallb] in H. apply andb_true_iff in H. destruct H as [Hr Hrows].
  cbn [map]. rewrite concat_cons, (utf8_app _ _ Hr). apply IH. exact Hrows.
Qed.

End CsvFacts.

Import CsvFacts.

Lemma combine_by_position {A B} (d1 : A) (d2 : B) (T : list A) :
  forall S, List.length T = List.length S ->
  map (fun i => (nth i T d1, nth i S d2)) (seq 0 (List.length T)) = combine T S.
Proof.
  induction T as [|t T IH]; intros S H; [reflexivity|].
  destruct S as [|x S]; [discriminate|]. injection H as H.
  cbn [List.length seq map nth combine]. f_equal.
  rewrite <- seq_shift, map_map. cbn [nth]. apply IH. exact H.
Qed.

Lemma combine_columns {A B} (T : list A) :
  forall (S : list B), List.length T = List.length S ->
  map fst (combine T S) = T /\ map snd (combine T S) = S.
Proof.
  induction T as [|t T IH]; intros S H; destruct S as [|x S]; try discriminate;
    [split; reflexivity|].
  injection H as H. destruct (IH S H) as [H1 H2]. cbn. rewrite H1, H2. split; reflexivity.
Qed.

Lemma records_of_columns p : to_dict_records (map ticker p) (map shares p) = p.
Proof.
  unfold to_dict_records. induction p as [|[t s] p IH]; [reflexivity|].
  cbn. f_equal. exact IH.
Qed.

Section SaveLoadFacts.
Variable float_repr : float -> string.
Variable float_parse : string -> option float.

Let tickers_text (p : list Holding) := Csv.column_text float_repr (map ticker p).
Let shares_text (p : list Holding) := Csv.column_text float_repr (map shares p).

Lemma texts_length p :
  List.length (tickers_text p) = List.length p
  /\ List.length (shares_text p) = List.length p.
Proof.
  unfold tickers_text, shares_text, Csv.column_text. rewrite !length_map. split; reflexivity.
Qed.

(** The saved file: the header and one line of two fields per holding. *)
Lemma saved_file p :
  Csv.to_csv float_repr (portfolio_frame p)
  = String.append
      (Csv.write_row ["ticker"; "shares"]%string)
      (String.concat EmptyString
         (map (fun r => Csv.write_row [fst r; snd r])
              (combine (tickers_text p) (shares_text p)))).
Proof.
  unfold Csv.to_csv, portfolio_frame. cbn [map fst snd]. f_equal. f_equal.
  destruct (texts_length p) as [HT HS].
  rewrite <- (combine_by_position EmptyString EmptyString (tickers_text p) (shares_text p))
    by congruence.
  rewrite map_map. cbn [fst snd]. rewrite HT, length_map. reflexivity.
Qed.

Lemma plain_rows p :
  plain_texts float_repr p = true ->
  forallb (fun r => plain (fst r) && plain (snd r))
          (combine (tickers_text p) (shares_text p)) = true.
Proof.
  unfold plain_texts. fold (tickers_text p) (shares_text p).
  rewrite forallb_app, andb_true_iff, !forallb_forall. intros [HT HS] [a b] Hin.
  cbn [fst snd]. rewrite (HT a), (HS b); [reflexivity| |].
  - apply in_combine_r in Hin. exact Hin.
  - apply in_combine_l in Hin. exact Hin.
Qed.

(** The saved file of plain texts is UTF-8 text that starts with the header,
    and its lines are the header and the rows of the two columns. *)
Lemma decode_saved p :
  plain_texts float_repr p = true ->
  Csv.decode (Csv.to_csv float_repr (portfolio_frame p))
  = Ok (Csv.to_csv float_repr (portfolio_frame p))
  /\ Csv.lines_of (Csv.to_csv float_repr (portfolio_frame p))
     = Ok (["ticker"; "shares"]%string
           :: map (fun r => [fst r; snd r]) (combine (tickers_text p) (shares_text p))).
Proof.
  intros Hplain. pose proof (plain_rows p Hplain) as Hrows.
  rewrite forallb_forall in Hrows.
  assert (Hone : forall r, In r (combine (tickers_text p) (shares_text p)) ->
             Csv.needs_quoting (fst r) = false /\ Csv.needs_quoting (snd r) = false
             /\ Csv.utf8 (fst r) = true /\ Csv.utf8 (snd r) = true).
  { intros r Hr. specialize (Hrows r Hr). unfold plain in Hrows.
    apply andb_true_iff in Hrows. destruct Hrows as [H1 H2].
    apply andb_true_iff in H1, H2. destruct H1 as [H1 H1'], H2 as [H2 H2'].
    apply negb_true_iff in H1, H2. auto. }
  rewrite saved_file. split.
  - unfold Csv.decode. rewrite utf8_app by reflexivity. rewrite utf8_rows; [reflexivity|].
    apply forallb_forall. intros r Hr. destruct (Hone r Hr) as (H1 & H2 & H3 & H4).
    apply utf8_row; assumption.
  - unfold Csv.lines_of. rewrite (read_row "ticker" "shares" _ eq_refl eq_refl).
    rewrite read_rows; [reflexivity|].
    apply forallb_forall. intros r Hr. destruct (Hone r Hr) as (-> & -> & _). reflexivity.
Qed.

(** Loading a saved file whose texts need no quoting: each column is read
    from the texts written for it. *)
Lemma load_saved p st :
  plain_texts float_repr p = true ->
  main_upload float_parse (Csv.to_csv float_repr (portfolio_frame p)) st
  = (mkSession (to_dict_records (Csv.infer_column float_parse (tickers_text p))
                                (Csv.infer_column float_parse (shares_text p))),
     [success "Portfolio loaded successfully!"]).
Proof.
  intros Hplain. destruct (decode_saved p Hplain) as [Hdec Hlines].
  unfold main_upload, Csv.read_csv. rewrite Hdec. cbn [bind]. rewrite Hlines. cbn [bind].
  destruct (texts_length p) as [HT HS].
  destruct (combine_columns (tickers_text p) (shares_text p)) as [Hfst Hsnd];
    [congruence|].
  assert (Hwidth : forall l : list (string * string),
             Csv.table_width ["ticker"; "shares"]%string (map (fun r => [fst r; snd r]) l)
             = 2%nat).
  { intros [|r l]; reflexivity. }
  assert (Hshort : forall l : list (string * string),
             existsb (fun r => Nat.ltb 2 (List.length r))
                     (map (fun r => [fst r; snd r]) l) = false).
  { induction l as [|r l IHl]; [reflexivity|exact IHl]. }
  rewrite Hwidth, Hshort. cbn [List.length Nat.sub seq combine map fst snd Nat.add].
  rewrite !map_map. cbn [nth fst snd].
  change (map (fun x : string * string => fst x)) with (@map (string * string) _ fst).
  change (map (fun x : string * string => snd x)) with (@map (string * string) _ snd).
  rewrite Hfst, Hsnd. reflexivity.
Qed.

(** X9. A portfolio whose texts are plain is saved and loaded without
    ever losing or adding a holding: the file on offer loads with the success
    message and gives as many holdings as were saved. *)
Theorem saved_file_loads_with_every_row p st :
  plain_texts float_repr p = true ->
  p <> [] ->
  exists csv loaded,
    main_download float_repr (mkSession p) = [download_button csv]
    /\ main_upload float_parse csv st
       = (mkSession loaded, [success "Portfolio loaded successfully!"])
    /\ List.length loaded = List.length p.
Proof.
  intros Hplain Hne. eexists. eexists. split; [|split].
  - unfold main_download. cbn [portfolio]. destruct p; [congruence|reflexivity].
  - apply load_saved. exact Hplain.
  - unfold to_dict_records. rewrite length_map, length_combine, !infer_column_length.
    destruct (texts_length p) as [-> ->]. apply Nat.min_id.
Qed.

Lemma ticker_texts p :
  saves_well float_repr float_parse p = true ->
  tickers_text p
  = map (fun h => match ticker h with VStr t => t | _ => EmptyString end) p
  /\ shares_text p
     = map (fun h => match shares h with VFloat f => float_repr f | _ => EmptyString end) p
  /\ forallb (text_ticker float_parse) (tickers_text p) = true
  /\ (forall h, In h p -> exists t f,
        h = mkHolding (VStr t) (VFloat f) /\ readable_shares float_repr float_parse f = true).
Proof.
  unfold saves_well. rewrite forallb_forall. intros H.
  assert (Hform : forall h, In h p -> exists t f,
             h = mkHolding (VStr t) (VFloat f)
             /\ text_ticker float_parse t = true
             /\ readable_shares float_repr float_parse f = true).
  { intros [t s] Hh. specialize (H _ Hh). cbn in H.
    destruct t; try discriminate. destruct s; try discriminate.
    apply andb_true_iff in H. destruct H. eauto. }
  assert (HT : tickers_text p
               = map (fun h => match ticker h with VStr t => t | _ => EmptyString end) p).
  { unfold tickers_text, Csv.column_text. rewrite map_map. apply map_ext_in.
    intros h Hh. destruct (Hform h Hh) as (t & f & -> & _). reflexivity. }
  split; [exact HT|]. split; [|split].
  - unfold shares_text, Csv.column_text. rewrite map_map. apply map_ext_in.
    intros h Hh. destruct (Hform h Hh) as (t & f & -> & _ & Hr). cbn.
    unfold readable_shares in Hr. destruct (is_nan f); [discriminate|reflexivity].
  - rewrite HT. apply forallb_forall. intros x Hx. apply in_map_iff in Hx.
    destruct Hx as (h & <- & Hh). destruct (Hform h Hh) as (t & f & -> & Ht & _).
    exact Ht.
  - intros h Hh. destruct (Hform h Hh) as (t & f & -> & _ & Hr). eauto.
Qed.

Lemma infer_text_column fields :
  fields <> [] ->
  forallb (text_ticker float_parse) fields = true ->
  Csv.infer_column float_parse fields = map VStr fields.
Proof.
  intros Hne H. rewrite forallb_forall in H.
  assert (Hone : forall s, In s fields ->
             Csv.is_na s = false
             /\ Csv.parse_int s = None
             /\ Csv.is_some (Csv.parse_number float_parse s) = false
             /\ Csv.parse_bool s = None).
  { intros s Hs. specialize (H s Hs). unfold text_ticker in H.
    repeat (apply andb_true_iff in H; destruct H as [H ?]).
    repeat match goal with Hx : negb _ = true |- _ => apply negb_true_iff in Hx end.
    split; [assumption|]. split; [|split; [assumption|]].
    - unfold Csv.parse_number in *. destruct (Csv.parse_int s); [discriminate|reflexivity].
    - destruct (Csv.parse_bool s); [discriminate|reflexivity]. }
  assert (Hnone : forall g : string -> bool,
             (forall s, In s fields -> g s = false) -> forallb g fields = false).
  { intros g Hg. destruct fields as [|s0 fields]; [congruence|].
    cbn [forallb]. rewrite (Hg s0 (or_introl eq_refl)). reflexivity. }
  unfold Csv.infer_column.
  rewrite (Hnone (fun s => Csv.is_some (Csv.parse_int s))),
          (Hnone (fun s => Csv.is_na s || Csv.is_some (Csv.parse_number float_parse s))),
          (Hnone (fun s => Csv.is_some (Csv.parse_bool s))).
  - apply map_ext_in. intros s Hs. destruct (Hone s Hs) as (-> & _ & _ & ->). reflexivity.
  - intros s Hs. destruct (Hone s Hs) as (_ & _ & _ & ->). reflexivity.
  - intros s Hs. destruct (Hone s Hs) as (-> & _ & -> & _). reflexivity.
  - intros s Hs. destruct (Hone s Hs) as (_ & -> & _ & _). reflexivity.
Qed.

Lemma infer_float_column fs :
  fs <> [] ->
  forallb (readable_shares float_repr float_parse) fs = true ->
  Csv.infer_column float_parse (map float_repr fs) = map VFloat fs.
Proof.
  intros Hne H. rewrite forallb_forall in H.
  assert (Hone : forall f, In f fs ->
             Csv.is_na (float_repr f) = false
             /\ Csv.parse_int (float_repr f) = None
             /\ Csv.parse_number float_parse (float_repr f) = Some f).
  { intros f Hf. specialize (H f Hf). unfold readable_shares in H.
    repeat (apply andb_true_iff in H; destruct H as [H ?]).
    repeat match goal with Hx : negb _ = true |- _ => apply negb_true_iff in Hx end.
    assert (Hint : Csv.parse_int (float_repr f) = None)
      by (destruct (Csv.parse_int (float_repr f)); [discriminate|reflexivity]).
    split; [assumption|]. split; [exact Hint|].
    unfold Csv.parse_number. rewrite Hint.
    destruct (Csv.parse_float float_parse (float_repr f)) as [g|]; [|discriminate].
    f_equal. apply FloatAxioms.Leibniz.eqb_spec. assumption. }
  assert (Hall : forallb (fun s => Csv.is_na s
                                   || Csv.is_some (Csv.parse_number float_parse s))
                         (map float_repr fs) = true).
  { apply forallb_forall. intros s Hs. apply in_map_iff in Hs.
    destruct Hs as (f & <- & Hf). destruct (Hone f Hf) as (_ & _ & ->).
    apply orb_true_r. }
  assert (Hint : forallb (fun s => Csv.is_some (Csv.parse_int s)) (map float_repr fs)
                 = false).
  { destruct fs as [|f0 fs]; [congruence|].
    destruct (Hone f0 (or_introl eq_refl)) as (_ & H2 & _).
    cbn [map forallb]. rewrite H2. reflexivity. }
  unfold Csv.infer_column. rewrite Hint, Hall.
  rewrite map_map. apply map_ext_in. intros f Hf.
  destruct (Hone f Hf) as (-> & _ & ->). reflexivity.
Qed.

(** X10. Ordinary portfolios survive saving and loading: when every ticker
    is plain text that is no missing-value marker, number or boolean word,
    and every share count is a float whose text is plain and read back as the
    same float, the saved file loads as the very portfolio that was saved,
    whatever the session held before. *)
Theorem ordinary_portfolio_is_restored p st :
  saves_well float_repr float_parse p = true ->
  p <> [] ->
  main_upload float_parse (Csv.to_csv float_repr (portfolio_frame p)) st
  = (mkSession p, [success "Portfolio loaded successfully!"]).
Proof.
  intros Hsave Hne.
  destruct (ticker_texts p Hsave) as (HT & HS & Htext & Hform).
  assert (Hplain : plain_texts float_repr p = true).
  { unfold plain_texts. fold (tickers_text p) (shares_text p).
    rewrite forallb_app. apply andb_true_iff. split; apply forallb_forall; intros x Hx.
    - rewrite forallb_forall in Htext. specialize (Htext x Hx). unfold text_ticker in Htext.
      do 3 (apply andb_true_iff in Htext; destruct Htext as [Htext _]). exact Htext.
    - rewrite HS in Hx. apply in_map_iff in Hx. destruct Hx as (h & <- & Hh).
      destruct (Hform h Hh) as (t & f & -> & Hr). cbn. unfold readable_shares in Hr.
      do 3 (apply andb_true_iff in Hr; destruct Hr as [Hr _]).
      apply andb_true_iff in Hr. destruct Hr as [_ Hr]. exact Hr. }
  rewrite (load_saved p st Hplain). f_equal. f_equal.
  assert (Htick : Csv.infer_column float_parse (tickers_text p) = map ticker p).
  { rewrite infer_text_column; [|destruct p; [congruence|discriminate]|exact Htext].
    rewrite HT, map_map. apply map_ext_in. intros h Hh.
    destruct (Hform h Hh) as (t & f & -> & _). reflexivity. }
  assert (Hshare : Csv.infer_column float_parse (shares_text p) = map shares p).
  { assert (Hfloats : shares_text p
                      = map float_repr
                          (map (fun h => match shares h with VFloat f => f | _ => 0 end) p)).
    { rewrite HS, map_map. apply map_ext_in. intros h Hh.
      destruct (Hform h Hh) as (t & f & -> & _). reflexivity. }
    rewrite Hfloats, infer_float_column.
    - rewrite map_map. apply map_ext_in. intros h Hh.
      destruct (Hform h Hh) as (t & f & -> & _). reflexivity.
    - destruct p; [congruence|discriminate].
    - apply forallb_forall. intros f Hf. apply in_map_iff in Hf.
      destruct Hf as (h & <- & Hh). destruct (Hform h Hh) as (t & f & -> & Hr).
      exact Hr. }
  rewrite Htick, Hshare. apply records_of_columns.
Qed.

End SaveLoadFacts.

(** AAPL and MSFT, with the excerpt of Python's float text. *)
Lemma saved_file_loads_with_every_row_witness :
  exists csv loaded,
    main_download repr_excerpt (mkSession ordinary) = [download_button csv]
    /\ main_upload parse_excerpt csv new_session
       = (mkSession loaded, [success "Portfolio loaded successfully!"%string])
    /\ List.length loaded = 2%nat.
Proof.
  apply (saved_file_loads_with_every_row repr_excerpt parse_excerpt ordinary new_session);
    [reflexivity | discriminate].
Defined.

(** AAPL and MSFT are loaded back as they were saved. *)
Lemma ordinary_portfolio_is_restored_witness :
  main_upload parse_excerpt (Csv.to_csv repr_excerpt (portfolio_frame ordinary)) new_session
  = (mkSession ordinary, [success "Portfolio loaded successfully!"%string]).
Proof.
  apply (ordinary_portfolio_is_restored repr_excerpt parse_excerpt ordinary new_session);
    [reflexivity | discriminate].
Defined.

(** ** From the sidebar to the charts *)

(** X11. A portfolio built in the sidebar of a new session is valued unless
    the price table has no row: with rows the run returns a result, without
    any it raises IndexError, and it raises nothing else. *)
Theorem sidebar_portfolio_fails_only_without_rows history events resp df :
  in_range events = true ->
  normalize (tickers_of (portfolio (replay history events new_session))) resp = Ok df ->
  (index df <> [] ->
   exists v, main_valuation (portfolio (replay history events new_session)) resp = Ok v)
  /\ (index df = [] ->
      main_valuation (portfolio (replay history events new_session)) resp
      = Raise IndexError).
Proof.
  intros Hr Hn. apply (main_valuation_runs _ _ _ Hn).
  apply numeric_shares_spec. intros t Ht _.
  destruct (form_holding_valid _ (new_session_form history events Hr)) as [Hv _].
  destruct (multiplier_valid _ _ Hv Ht) as (f & Hf & _). eauto.
Qed.

(** The portfolio of the sample afternoon, priced over two days. *)
Lemma sidebar_portfolio_fails_only_without_rows_witness :
  exists v,
    main_valuation (portfolio (replay (fun _ => HistoryRows) busy_afternoon new_session))
                   (RFrame (table [VStr "GOOG"; VStr "MSFT"]
                                  [(1%Z, [100; 200]); (2%Z, [110; 210])]))
    = Ok v.
Proof.
  assert (Hn : normalize
                 (tickers_of (portfolio (replay (fun _ => HistoryRows) busy_afternoon
                                                new_session)))
                 (RFrame (table [VStr "GOOG"; VStr "MSFT"]
                                [(1%Z, [100; 200]); (2%Z, [110; 210])]))
               = Ok (dropna_all (table [VStr "GOOG"; VStr "MSFT"]
                                       [(1%Z, [100; 200]); (2%Z, [110; 210])])))
    by reflexivity.
  apply (proj1 (sidebar_portfolio_fails_only_without_rows
                  (fun _ => HistoryRows) busy_afternoon _ _ eq_refl Hn)).
  vm_compute. discriminate.
Defined.

(** ** The upload path *)

Lemma column_lookup name (frame : Csv.RecordFrame) :
  match Csv.column name frame with
  | Some cells => In (name, cells) frame
  | None => ~ In name (map fst frame)
  end.
Proof.
  induction frame as [|[n cells] frame IH]; simpl; [tauto|].
  destruct (String.eqb n name) eqn:E.
  - apply String.eqb_eq in E. subst. left. reflexivity.
  - apply String.eqb_neq in E. destruct (Csv.column name frame).
    + right. exact IH.
    + intros [H|H]; [congruence|contradiction].
Qed.

(** X12. A file of UTF-8 text with a header line, whose data lines after
    the first have no more fields than the first one or the header, is
    accepted exactly when the header has a field [ticker] and a field
    [shares], in any position and among any other fields: then every data
    line becomes a holding and the portfolio is replaced; otherwise the
    portfolio stays and the error box tells which columns are needed. *)
Theorem upload_accepts_by_header float_parse file text header body st :
  Csv.decode file = Ok text ->
  Csv.lines_of text = Ok (header :: body) ->
  forallb (fun r => Nat.leb (List.length r) (Csv.table_width header body)) body = true ->
  if existsb (String.eqb "ticker") header && existsb (String.eqb "shares") header
  then exists records,
         main_upload float_parse file st
         = (mkSession records, [success "Portfolio loaded successfully!"])
         /\ List.length records = List.length body
  else main_upload float_parse file st
       = (st, [error "CSV must have 'ticker' and 'shares' columns."]).
Proof.
  intros Hdec Hlines Hshort. unfold main_upload, Csv.read_csv.
  rewrite Hdec. cbn [bind]. rewrite Hlines. cbn [bind].
  assert (Hlong : forall w l,
             forallb (fun r : list string => Nat.leb (List.length r) w) l = true ->
             existsb (fun r => Nat.ltb w (List.length r)) l = false).
  { intros w l. induction l as [|r l IH]; intros H; [reflexivity|].
    cbn [forallb] in H. apply andb_true_iff in H. destruct H as [Hr Hb].
    cbn [existsb]. rewrite (IH Hb), orb_false_r. apply Nat.ltb_ge, Nat.leb_le. exact Hr. }
  rewrite (Hlong _ _ Hshort).
  set (frame := map _ (combine (seq 0 (List.length header)) header)).
  assert (Hnames : map fst frame = header).
  { unfold frame. rewrite map_map. cbn [fst].
    apply (combine_columns (seq 0 (List.length header)) header). apply length_seq. }
  assert (Hcells : forall name cells, In (name, cells) frame ->
                                      List.length cells = List.length body).
  { intros name cells Hin. unfold frame in Hin. apply in_map_iff in Hin.
    destruct Hin as (ic & [= _ <-] & _). rewrite infer_column_length, length_map.
    reflexivity. }
  assert (Hfound : forall name,
             existsb (String.eqb name) header = true <-> In name (map fst frame)).
  { intros name. rewrite Hnames, existsb_exists. split.
    - intros (x & Hx & E). apply String.eqb_eq in E. congruence.
    - intros Hin. exists name. split; [exact Hin|apply String.eqb_refl]. }
  assert (Hcol : forall name,
             existsb (String.eqb name) header
             = match Csv.column name frame with Some _ => true | None => false end).
  { intros name. pose proof (column_lookup name frame) as H.
    destruct (Csv.column name frame) as [cells|].
    - apply Hfound, in_map_iff. exists (name, cells). auto.
    - destruct (existsb (String.eqb name) header) eqn:E; [|reflexivity].
      exfalso. apply H, Hfound, E. }
  rewrite (Hcol "ticker"%string), (Hcol "shares"%string).
  pose proof (column_lookup "ticker" frame) as Ht.
  pose proof (column_lookup "shares" frame) as Hs.
  destruct (Csv.column "ticker" frame) as [ts|];
    destruct (Csv.column "shares" frame) as [ss|]; cbn [andb]; try reflexivity.
  eexists. split; [reflexivity|].
  unfold to_dict_records. rewrite length_map, length_combine.
  rewrite (Hcells _ _ Ht), (Hcells _ _ Hs). apply Nat.min_id.
Qed.

(** A file with a line of blanks, a column more than needed and a
    numbering in front of its data lines. *)
Lemma upload_accepts_by_header_witness :
  exists records,
    main_upload parse_excerpt numbered_rows new_session
    = (mkSession records, [success "Portfolio loaded successfully!"%string])
    /\ List.length records = 2%nat.
Proof.
  assert (Hd : Csv.decode numbered_rows = Ok (Csv.drop_bom numbered_rows))
    by (vm_compute; reflexivity).
  assert (Hl : Csv.lines_of (Csv.drop_bom numbered_rows)
               = Ok [["note"; "shares"; "ticker"];
                     ["0"; "x"; " 1"; "AAPL"]; ["1"; "y"; "2"; "MSFT"]]%string)
    by (vm_compute; reflexivity).
  exact (upload_accepts_by_header parse_excerpt _ _ _ _ new_session Hd Hl eq_refl).
Defined.

(** ** Share counts of any type *)

Lemma last_shares_same_numbers t p :
  forall p', same_numbers p p' ->
  option_map as_number (last_shares t p) = option_map as_number (last_shares t p').
Proof.
  unfold same_numbers. induction p as [|h p IH]; intros [|h' p'] [Ht Hs];
    try discriminate; [reflexivity|].
  cbn [map] in Ht, Hs. injection Ht as Ht0 Ht. injection Hs as Hs0 Hs.
  specialize (IH p' (conj Ht Hs)). cbn [last_shares].
  destruct (last_shares t p), (last_shares t p'); try discriminate; try exact IH.
  rewrite Ht0. destruct (Value_eqb (ticker h') t); [|reflexivity].
  cbn [option_map]. rewrite Hs0. reflexivity.
Qed.

Lemma value_columns_same_numbers df sm sm' ts :
  (forall t, option_map as_number (dict_get t sm) = option_map as_number (dict_get t sm')) ->
  forall pv, value_columns df sm ts pv = value_columns df sm' ts pv.
Proof.
  intros Hsm. induction ts as [|t ts IH]; intros pv; simpl; [reflexivity|].
  destruct (contains (columns df) t); [|apply IH].
  specialize (Hsm t).
  destruct (dict_get t sm) as [s|], (dict_get t sm') as [s'|]; try discriminate;
    [|reflexivity].
  cbn [option_map] in Hsm. injection Hsm as Hsm. unfold mul_scalar. rewrite Hsm.
  destruct (as_number s'); cbn [bind]; [apply IH|reflexivity].
Qed.

(** X13. The valuation reads a share count only through its conversion to
    a float: two portfolios with the same tickers and, record by record,
    share counts that convert alike (to the same float, as an integer or a
    boolean loaded from a file and a float typed in the form may, or to the
    same error, as two texts or two integers beyond the floats do) are
    valued alike. *)
Theorem valuation_reads_share_counts_as_numbers p p' resp :
  same_numbers p p' ->
  main_valuation p resp = main_valuation p' resp.
Proof.
  intros Hsame. unfold main_valuation.
  assert (Ht : tickers_of p = tickers_of p') by (destruct Hsame; assumption).
  rewrite Ht. destruct (normalize (tickers_of p') resp) as [df|e]; [|reflexivity].
  cbn [bind].
  rewrite (value_columns_same_numbers df (share_map_of p) (share_map_of p'));
    [reflexivity|].
  intros t. rewrite !share_map_get. apply last_shares_same_numbers. exact Hsame.
Qed.

(** Ten shares held as the integer of a file and as the float of the form. *)
Lemma valuation_reads_share_counts_as_numbers_witness :
  main_valuation [mkHolding AAPL (VInt 10)] aapl_only = main_valuation one_stock aapl_only.
Proof.
  apply valuation_reads_share_counts_as_numbers. split; reflexivity.
Defined.

(** ** One run of the script *)

Import Run.

Lemma asset_rows_hit items click :
  forall k,
    snd (asset_rows k items click)
    = match click with
      | Some c => if Nat.leb k c && Nat.ltb c (k + List.length items) then Some c else None
      | None => None
      end.
Proof.
  induction items as [|item rest IH]; intros k; cbn [asset_rows].
  - destruct click as [c|]; [|reflexivity]. cbn [snd List.length].
    destruct (Nat.leb_spec k c), (Nat.ltb_spec c (k + 0)); try reflexivity; lia.
  - destruct click as [c|].
    + destruct (Nat.eqb_spec c k) as [->|Hne].
      * cbn [snd List.length].
        destruct (Nat.leb_spec k k), (Nat.ltb_spec k (k + S (List.length rest)));
          try reflexivity; lia.
      * specialize (IH (S k)). destruct (asset_rows (S k) rest (Some c)) as [rows hit].
        cbn [snd] in *. rewrite IH. cbn [List.length].
        destruct (Nat.leb_spec (S k) c), (Nat.leb_spec k c),
          (Nat.ltb_spec c (S k + List.length rest)),
          (Nat.ltb_spec c (k + S (List.length rest))); try reflexivity; lia.
    + specialize (IH (S k)). destruct (asset_rows (S k) rest None) as [rows hit].
      cbn [snd] in *. exact IH.
Qed.

Lemma main_content_session resp st : fst (main_content resp st) = st.
Proof.
  unfold main_content. destruct (portfolio st); [reflexivity|].
  destruct (main_valuation _ resp); reflexivity.
Qed.

(** The session a run leaves: the upload first, then the form, then the
    button. *)
Lemma main_session float_repr float_parse history yf_download inp st :
  fst (fst (main float_repr float_parse history yf_download inp st))
  = replay history (events_of inp)
           match uploaded_file inp with
           | Some file => fst (main_upload float_parse file st)
           | None => st
           end.
Proof.
  unfold main, main_sidebar, events_of, replay.
  set (st1 := match uploaded_file inp with
              | Some file => fst (main_upload float_parse file st)
              | None => st
              end).
  assert (H1 : match uploaded_file inp with
               | Some file => main_upload float_parse file st
               | None => (st, [])
               end
               = (st1, match uploaded_file inp with
                       | Some file => snd (main_upload float_parse file st)
                       | None => []
                       end)).
  { unfold st1. destruct (uploaded_file inp) as [file|]; [|reflexivity].
    destruct (main_upload float_parse file st); reflexivity. }
  rewrite H1. clearbody st1. clear H1.
  set (st2 := match submitted inp with
              | Some (text, shares_input) => handle history (Submit text shares_input) st1
              | None => st1
              end).
  assert (H2 : match submitted inp with
               | Some (text, shares_input) => main_add_stock history text shares_input st1
               | None => (st1, [])
               end
               = (st2, match submitted inp with
                       | Some (text, shares_input) =>
                           snd (main_add_stock history text shares_input st1)
                       | None => []
                       end)).
  { unfold st2. destruct (submitted inp) as [[text shares_input]|]; [|reflexivity].
    cbn [handle]. destruct (main_add_stock history text shares_input st1); reflexivity. }
  rewrite H2. rewrite fold_left_app.
  assert (H3 : fold_left (fun st0 ev => handle history ev st0)
                         match submitted inp with
                         | Some (text, shares_input) => [Submit text shares_input]
                         | None => []
                         end st1 = st2).
  { unfold st2. destruct (submitted inp) as [[text shares_input]|]; reflexivity. }
  rewrite H3. clearbody st2. clear H2 H3.
  assert (H4 : exists rows,
             match portfolio st2 with
             | [] => ([shown (info "No stocks added yet.")], None)
             | h :: r => asset_rows 0 (h :: r) (clicked inp)
             end
             = (rows, match clicked inp with
                      | Some c => if Nat.ltb c (List.length (portfolio st2))
                                  then Some c else None
                      | None => None
                      end)).
  { pose proof (asset_rows_hit (portfolio st2) (clicked inp) 0) as H.
    destruct (portfolio st2) as [|h r] eqn:Ep.
    - eexists. destruct (clicked inp); reflexivity.
    - destruct (asset_rows 0 (h :: r) (clicked inp)) as [rows hit]. exists rows.
      cbn [snd] in H. rewrite H. reflexivity. }
  destruct H4 as (rows & H4). rewrite H4.
  assert (Hc : forall resp l,
             fst (fst (let (st3, w4) := main_content resp st2 in
                       (st3, (l ++ map shown w4)%list, false))) = st2).
  { intros resp l. pose proof (main_content_session resp st2) as H.
    destruct (main_content resp st2). exact H. }
  destruct (clicked inp) as [c|]; cbn [fold_left handle].
  - destruct (Nat.ltb c (List.length (portfolio st2))); [reflexivity|apply Hc].
  - apply Hc.
Qed.

(** X15. A run with no file in the uploader changes the session exactly as
    its events do, the form before the button: the submitted stock is added
    first, the clicked row is then taken out of the list with that stock in
    it, and the main area, when the run reaches it, leaves the session as
    it is. *)
Theorem run_without_file_follows_events float_repr float_parse history yf_download inp st :
  uploaded_file inp = None ->
  fst (fst (main float_repr float_parse history yf_download inp st))
  = replay history (events_of inp) st.
Proof.
  intros Hfile. rewrite main_session, Hfile. reflexivity.
Qed.

(** A run that submits MSFT and clicks the button of the first row. *)
Lemma run_without_file_follows_events_witness :
  fst (fst (main repr_excerpt parse_excerpt (fun _ => HistoryRows) (fun _ _ => two_days)
                 (mkInputs None (Some ("msft"%string, 5)) (Some 0%nat) 365)
                 (mkSession one_stock)))
  = mkSession [mkHolding MSFT (VFloat 5)].
Proof.
  rewrite run_without_file_follows_events; reflexivity.
Defined.

(** X16. A run whose uploader holds a file that loads starts from the file:
    the session it leaves does not depend on the portfolio held before the
    run, so the stocks added by hand or removed before are back to what the
    file says. *)
Theorem run_with_a_file_starts_from_the_file
        float_repr float_parse history yf_download inp file st st' :
  uploaded_file inp = Some file ->
  snd (main_upload float_parse file st) = [success "Portfolio loaded successfully!"] ->
  fst (fst (main float_repr float_parse history yf_download inp st))
  = fst (fst (main float_repr float_parse history yf_download inp st')).
Proof.
  intros Hfile Hok. rewrite !main_session, Hfile. f_equal.
  unfold main_upload in *.
  destruct (Csv.read_csv float_parse file) as [frame|e]; [|discriminate Hok].
  destruct (Csv.column "ticker" frame), (Csv.column "shares" frame);
    try discriminate Hok; reflexivity.
Qed.

(** The file of two stocks, loaded over an empty session and over one stock. *)
Lemma run_with_a_file_starts_from_the_file_witness :
  fst (fst (main repr_excerpt parse_excerpt (fun _ => HistoryRows) (fun _ _ => two_days)
                 (file_only (file ["ticker,shares"; "AAPL,10"; "MSFT,5"]%string))
                 new_session))
  = fst (fst (main repr_excerpt parse_excerpt (fun _ => HistoryRows) (fun _ _ => two_days)
                   (file_only (file ["ticker,shares"; "AAPL,10"; "MSFT,5"]%string))
                   (mkSession one_stock))).
Proof.
  apply (run_with_a_file_starts_from_the_file _ _ _ _ _
           (file ["ticker,shares"; "AAPL,10"; "MSFT,5"]%string)).
  - reflexivity.
  - vm_compute. reflexivity.
Defined.
